(** * commissionCreator: the commission matrix of an opportunity

    A shallow embedding of the Lightning web component
    [force-app/main/default/lwc/commissionCreator/commissionCreator.js]
    and the properties of its matrix state engine: reconciliation on load
    ([initializeMatrix]), the four grid mutations, the totals pass
    ([calculateTotals]), submission and delete-and-recreate.

    JavaScript numbers are IEEE 754 binary64 values; they are embedded as
    Rocq's primitive floats, so every product, quotient and sum below rounds
    as it does in the component. *)

From Stdlib Require Import Floats List Ascii String Bool Arith Lia DecimalString.
Import ListNotations.

Set Warnings "-inexact-float".

Local Open Scope list_scope.
Local Open Scope string_scope.

(** ** JavaScript values *)

Module JS.

(** A numeric property of an object received from Apex: the property may be
    missing ([undefined]), [null], or hold a number. *)
Inductive num : Type :=
| Undefined
| Null
| Num (f : float).

(** [ToBoolean] on a number: [+0], [-0] and [NaN] are falsy. *)
Definition truthy_float (f : float) : bool :=
  negb (PrimFloat.is_nan f || PrimFloat.eqb f 0%float).

(** [ToBoolean] on a string: only the empty string is falsy. *)
Definition truthy_string (s : string) : bool :=
  match s with
  | EmptyString => false
  | String _ _ => true
  end.

(** [f || 0] for a number [f]. *)
Definition float_or_zero (f : float) : float :=
  if truthy_float f then f else 0%float.

(** [v || 0] for a numeric property [v]. *)
Definition or_zero (v : num) : float :=
  match v with
  | Num f => float_or_zero f
  | Undefined | Null => 0%float
  end.

(** [a || b] for string properties ([None] is [undefined] or [null]). *)
Definition or_string (a b : option string) : option string :=
  match a with
  | Some s => if truthy_string s then a else b
  | None => b
  end.

(** [!a] for a string property. *)
Definition falsy (a : option string) : bool :=
  match a with
  | Some s => negb (truthy_string s)
  | None => true
  end.

(** A string property inside a template literal or a [+] concatenation. *)
Definition show (a : option string) : string :=
  match a with
  | Some s => s
  | None => "undefined"
  end.

(** [n.toString()] and [`${n}`] for a count. *)
Definition show_nat (n : nat) : string :=
  NilEmpty.string_of_uint (Nat.to_uint n).

(** [ToNumber(v)], as [v <= 1] and [v * 100] apply it: [null] converts to
    [+0] and [undefined] to [NaN]. *)
Definition to_number (v : num) : float :=
  match v with
  | Num f => f
  | Null => 0%float
  | Undefined => PrimFloat.nan
  end.

End JS.

(** ** The records loaded from Apex *)

Module LineItem.
(** An [OpportunityLineItem]; [Product2_Name] is [lineItem.Product2?.Name]. *)
Record t : Type := mk {
  Id : string;
  Name : option string;
  Product2_Name : option string;
  Line_Margin__c : JS.num
}.
End LineItem.

Module TeamMember.
Record t : Type := mk {
  userId : string;
  name : option string;
  role : option string;
  defaultRate : JS.num
}.
End TeamMember.

Module Commission.
(** A commission record already stored for the opportunity. *)
Record t : Type := mk {
  Id : string;
  OpportunityLineItem__c : string;
  User__c : string;
  Commission_Percentage__c : JS.num
}.
End Commission.

Module OpportunityData.
(** [lineItems] and [teamMembers] are [None] while nothing is loaded
    ([opportunityData = {}]). *)
Record t : Type := mk {
  lineItems : option (list LineItem.t);
  teamMembers : option (list TeamMember.t)
}.
Definition empty : t := mk None None.
End OpportunityData.

(** ** Cells of the matrix *)

Module Cell.
Record t : Type := mk {
  id : string;
  lineItemId : string;
  userId : string;
  lineItemName : option string;
  teamMemberName : option string;
  teamMemberRole : option string;
  lineMargin : float;
  selected : bool;
  percentage : float;
  defaultPercentage : float;
  amount : float;
  existingCommissionId : option string
}.

(** [{ ...cell, selected: b }] *)
Definition with_selected (b : bool) (c : t) : t :=
  mk (id c) (lineItemId c) (userId c) (lineItemName c) (teamMemberName c)
     (teamMemberRole c) (lineMargin c) b (percentage c)
     (defaultPercentage c) (amount c) (existingCommissionId c).

(** [{ ...cell, percentage: p }] *)
Definition with_percentage (p : float) (c : t) : t :=
  mk (id c) (lineItemId c) (userId c) (lineItemName c) (teamMemberName c)
     (teamMemberRole c) (lineMargin c) (selected c) p
     (defaultPercentage c) (amount c) (existingCommissionId c).

(** [{ ...cell, amount: a }] *)
Definition with_amount (a : float) (c : t) : t :=
  mk (id c) (lineItemId c) (userId c) (lineItemName c) (teamMemberName c)
     (teamMemberRole c) (lineMargin c) (selected c) (percentage c)
     (defaultPercentage c) a (existingCommissionId c).
End Cell.

(** The cell identifier [`${lineItemId}-${userId}`]. *)
Definition cell_id (lineItemId userId : string) : string :=
  lineItemId ++ "-" ++ userId.

(** ** What the component sends out *)

(** One entry of [cellsForApex]. *)
Module ApexCell.
Record t : Type := mk {
  lineItemId : string;
  userId : string;
  selected : bool;
  percentage : float;
  amount : float
}.
End ApexCell.

(** The observable actions of the component, in the order they happen: toast
    events, calls of the imported Apex methods, closing the flow, navigation
    and the timer armed after a successful submission, whose callback is
    [closeFlowAndRefresh]. The argument [matrixDataJson] of
    [createUpdateCommissions] is kept as the sequence that [JSON.stringify]
    receives. *)
Inductive Effect : Type :=
| ShowToast (title message variant : string)
| GetOpportunityData (opportunityId : string)
| GetExistingCommissions (opportunityId : string)
| DeleteExistingCommissions (opportunityId : string)
| CreateUpdateCommissions (opportunityId : string) (cellsForApex : list ApexCell.t)
| CloseActionScreen
| Navigate (recordId actionName : string)
| SetTimeoutCloseFlow (ms : nat).

(** A rejected Apex promise: [error.body?.message] and [error.message]. *)
Record ApexError : Type := {
  body_message : option string;
  message : option string
}.

(** How an awaited Apex call settles. *)
Inductive Settled (A : Type) : Type :=
| Resolved (value : A)
| Rejected (error : ApexError).
Arguments Resolved {A} value.
Arguments Rejected {A} error.

(** The answer of [createUpdateCommissions]. *)
Record SubmitResult : Type := {
  success : bool;
  recordsCreated : nat;
  recordsUpdated : nat;
  errorMessage : option string;
  partialErrors : option (list string)
}.

(** ** The component state *)

Module State.
(** The fields of the component. The two counters ([totalCommissions],
    [refreshKey]) only ever count up from 0 by 1, where binary64 arithmetic
    is exact, and are kept as natural numbers; [commissionsCreated] holds the
    count whose decimal string the component stores. *)
Record t : Type := mk {
  opportunityId : string;
  commissionsCreated : nat;
  opportunityData : OpportunityData.t;
  matrixData : list Cell.t;
  existingCommissions : list Commission.t;
  totalCommissions : nat;
  totalAmount : float;
  isLoading : bool;
  hasExistingCommissions : bool;
  showDuplicateOptions : bool;
  error : option string;
  refreshKey : nat;
  isProcessing : bool
}.

(** The field initialisers of the class. *)
Definition initial (opportunityId : string) : t :=
  mk opportunityId 0 OpportunityData.empty [] [] 0 0%float true false false
     None 0 false.

Definition set_commissionsCreated (v : nat) (s : t) : t :=
  mk (opportunityId s) v (opportunityData s) (matrixData s)
     (existingCommissions s) (totalCommissions s) (totalAmount s)
     (isLoading s) (hasExistingCommissions s) (showDuplicateOptions s)
     (error s) (refreshKey s) (isProcessing s).
Definition set_opportunityData (v : OpportunityData.t) (s : t) : t :=
  mk (opportunityId s) (commissionsCreated s) v (matrixData s)
     (existingCommissions s) (totalCommissions s) (totalAmount s)
     (isLoading s) (hasExistingCommissions s) (showDuplicateOptions s)
     (error s) (refreshKey s) (isProcessing s).
Definition set_matrixData (v : list Cell.t) (s : t) : t :=
  mk (opportunityId s) (commissionsCreated s) (opportunityData s) v
     (existingCommissions s) (totalCommissions s) (totalAmount s)
     (isLoading s) (hasExistingCommissions s) (showDuplicateOptions s)
     (error s) (refreshKey s) (isProcessing s).
Definition set_existingCommissions (v : list Commission.t) (s : t) : t :=
  mk (opportunityId s) (commissionsCreated s) (opportunityData s)
     (matrixData s) v (totalCommissions s) (totalAmount s)
     (isLoading s) (hasExistingCommissions s) (showDuplicateOptions s)
     (error s) (refreshKey s) (isProcessing s).
Definition set_totalCommissions (v : nat) (s : t) : t :=
  mk (opportunityId s) (commissionsCreated s) (opportunityData s)
     (matrixData s) (existingCommissions s) v (totalAmount s)
     (isLoading s) (hasExistingCommissions s) (showDuplicateOptions s)
     (error s) (refreshKey s) (isProcessing s).
Definition set_totalAmount (v : float) (s : t) : t :=
  mk (opportunityId s) (commissionsCreated s) (opportunityData s)
     (matrixData s) (existingCommissions s) (totalCommissions s) v
     (isLoading s) (hasExistingCommissions s) (showDuplicateOptions s)
     (error s) (refreshKey s) (isProcessing s).
Definition set_isLoading (v : bool) (s : t) : t :=
  mk (opportunityId s) (commissionsCreated s) (opportunityData s)
     (matrixData s) (existingCommissions s) (totalCommissions s)
     (totalAmount s) v (hasExistingCommissions s) (showDuplicateOptions s)
     (error s) (refreshKey s) (isProcessing s).
Definition set_hasExistingCommissions (v : bool) (s : t) : t :=
  mk (opportunityId s) (commissionsCreated s) (opportunityData s)
     (matrixData s) (existingCommissions s) (totalCommissions s)
     (totalAmount s) (isLoading s) v (showDuplicateOptions s)
     (error s) (refreshKey s) (isProcessing s).
Definition set_showDuplicateOptions (v : bool) (s : t) : t :=
  mk (opportunityId s) (commissionsCreated s) (opportunityData s)
     (matrixData s) (existingCommissions s) (totalCommissions s)
     (totalAmount s) (isLoading s) (hasExistingCommissions s) v
     (error s) (refreshKey s) (isProcessing s).
Definition set_error (v : option string) (s : t) : t :=
  mk (opportunityId s) (commissionsCreated s) (opportunityData s)
     (matrixData s) (existingCommissions s) (totalCommissions s)
     (totalAmount s) (isLoading s) (hasExistingCommissions s)
     (showDuplicateOptions s) v (refreshKey s) (isProcessing s).
Definition set_refreshKey (v : nat) (s : t) : t :=
  mk (opportunityId s) (commissionsCreated s) (opportunityData s)
     (matrixData s) (existingCommissions s) (totalCommissions s)
     (totalAmount s) (isLoading s) (hasExistingCommissions s)
     (showDuplicateOptions s) (error s) v (isProcessing s).
Definition set_isProcessing (v : bool) (s : t) : t :=
  mk (opportunityId s) (commissionsCreated s) (opportunityData s)
     (matrixData s) (existingCommissions s) (totalCommissions s)
     (totalAmount s) (isLoading s) (hasExistingCommissions s)
     (showDuplicateOptions s) (error s) (refreshKey s) v.
End State.

(** ** Methods as commands

    A method of the component reads and updates [this] and dispatches events:
    a command maps the state before to the state after and the effects it
    produced, in order. *)

Definition Cmd : Type := State.t -> State.t * list Effect.

Definition skip : Cmd := fun s => (s, []).

Definition seq (c1 c2 : Cmd) : Cmd :=
  fun s =>
    let (s1, l1) := c1 s in
    let (s2, l2) := c2 s1 in
    (s2, (l1 ++ l2)%list).

(** [this.field = v] *)
Definition assign (f : State.t -> State.t) : Cmd := fun s => (f s, []).

(** [this.dispatchEvent(...)], an Apex call, a timer. *)
Definition emit (e : Effect) : Cmd := fun s => (s, [e]).

(** Reading [this]. *)
Definition with_this (k : State.t -> Cmd) : Cmd := fun s => k s s.

Declare Scope cmd_scope.
Delimit Scope cmd_scope with cmd.
Bind Scope cmd_scope with Cmd.
Notation "c1 ;; c2" := (seq c1 c2)
  (at level 61, right associativity) : cmd_scope.
Local Open Scope cmd_scope.

(** The state and the effects after running a command. *)
Definition exec (c : Cmd) (s : State.t) : State.t := fst (c s).
Definition trace (c : Cmd) (s : State.t) : list Effect := snd (c s).

(** ** Utility methods *)

Definition showSuccessToast (message : string) : Cmd :=
  emit (ShowToast "Success" message "success").

Definition showErrorToast (message : string) : Cmd :=
  emit (ShowToast "Error" message "error").

Definition closeFlowAndRefresh : Cmd :=
  with_this (fun this =>
    emit CloseActionScreen ;;
    emit (Navigate (State.opportunityId this) "view")).

Definition forceRefresh : Cmd :=
  assign (fun s => State.set_refreshKey (State.refreshKey s + 1) s).

(** ** calculateTotals *)

(** The amount the totals pass gives a cell:
    [cell.selected ? (cell.lineMargin * decimalPercentage) : 0] with
    [decimalPercentage = cell.percentage / 100]. *)
Definition cell_amount (cell : Cell.t) : float :=
  let decimalPercentage := (Cell.percentage cell / 100)%float in
  if Cell.selected cell then (Cell.lineMargin cell * decimalPercentage)%float
  else 0%float.

(** The callback of [this.matrixData.map] in [calculateTotals], run over the
    cells in order with the two accumulators [totalComm] and [totalAmt] it
    updates; the result is [newMatrix] and the final accumulators. *)
Fixpoint totals_pass (cells : list Cell.t) (totalComm : nat) (totalAmt : float)
  : list Cell.t * nat * float :=
  match cells with
  | [] => ([], totalComm, totalAmt)
  | cell :: rest =>
      let amount := cell_amount cell in
      let totalComm' := if Cell.selected cell then S totalComm else totalComm in
      let totalAmt' :=
        if Cell.selected cell then (totalAmt + amount)%float else totalAmt in
      let '(newRest, comm, amt) := totals_pass rest totalComm' totalAmt' in
      (Cell.with_amount amount cell :: newRest, comm, amt)
  end.

Definition calculateTotals : Cmd :=
  with_this (fun this =>
    let '(newMatrix, totalComm, totalAmt) :=
      totals_pass (State.matrixData this) 0 0%float in
    assign (State.set_matrixData newMatrix) ;;
    assign (State.set_totalCommissions totalComm) ;;
    assign (State.set_totalAmount totalAmt)).

(** ** initializeMatrix and findExistingCommission *)

Definition findExistingCommission
  (existingCommissions : list Commission.t) (lineItemId userId : string)
  : option Commission.t :=
  find (fun comm =>
          String.eqb (Commission.OpportunityLineItem__c comm) lineItemId
          && String.eqb (Commission.User__c comm) userId)
       existingCommissions.

(** The conversion of a stored [Commission_Percentage__c] that is not
    [undefined]: values up to 1 are read as fractions. *)
Definition convert_percentage (commissionPercentage : JS.num) : float :=
  let n := JS.to_number commissionPercentage in
  if (n <=? 1)%float then (n * 100)%float else n.

(** [percentageValue] at the end of the conversion block. *)
Definition percentageValue
  (teamMember : TeamMember.t) (existingCommission : option Commission.t)
  : float :=
  let percentageValue := JS.or_zero (TeamMember.defaultRate teamMember) in
  match existingCommission with
  | Some comm =>
      match Commission.Commission_Percentage__c comm with
      | JS.Undefined => percentageValue
      | commissionPercentage => convert_percentage commissionPercentage
      end
  | None => percentageValue
  end.

(** [existingCommission?.Id || null] *)
Definition existingCommissionId_of (existingCommission : option Commission.t)
  : option string :=
  match existingCommission with
  | Some comm =>
      if JS.truthy_string (Commission.Id comm) then Some (Commission.Id comm)
      else None
  | None => None
  end.

(** The cell built for one line item and one team member. *)
Definition new_cell (existingCommissions : list Commission.t)
  (lineItem : LineItem.t) (teamMember : TeamMember.t) : Cell.t :=
  let existingCommission :=
    findExistingCommission existingCommissions
      (LineItem.Id lineItem) (TeamMember.userId teamMember) in
  {| Cell.id := cell_id (LineItem.Id lineItem) (TeamMember.userId teamMember);
     Cell.lineItemId := LineItem.Id lineItem;
     Cell.userId := TeamMember.userId teamMember;
     Cell.lineItemName :=
       JS.or_string (LineItem.Product2_Name lineItem) (LineItem.Name lineItem);
     Cell.teamMemberName := TeamMember.name teamMember;
     Cell.teamMemberRole := TeamMember.role teamMember;
     Cell.lineMargin := JS.or_zero (LineItem.Line_Margin__c lineItem);
     Cell.selected :=
       match existingCommission with Some _ => true | None => false end;
     Cell.percentage := percentageValue teamMember existingCommission;
     Cell.defaultPercentage := JS.or_zero (TeamMember.defaultRate teamMember);
     Cell.amount := 0%float;
     Cell.existingCommissionId := existingCommissionId_of existingCommission |}.

(** [xs?.forEach(f)] pushing the cells [f] builds: nothing when [xs] is
    missing. *)
Definition forEach_push {A : Type} (xs : option (list A)) (f : A -> list Cell.t)
  : list Cell.t :=
  match xs with
  | Some l => flat_map f l
  | None => []
  end.

(** The array [matrix] after the two nested loops. *)
Definition build_matrix (data : OpportunityData.t)
  (existingCommissions : list Commission.t) : list Cell.t :=
  forEach_push (OpportunityData.lineItems data) (fun lineItem =>
    forEach_push (OpportunityData.teamMembers data) (fun teamMember =>
      [new_cell existingCommissions lineItem teamMember])).

Definition initializeMatrix : Cmd :=
  with_this (fun this =>
    let matrix :=
      build_matrix (State.opportunityData this)
                   (State.existingCommissions this) in
    assign (State.set_matrixData matrix)) ;;
  calculateTotals ;;
  assign (State.set_showDuplicateOptions false).

(** ** loadData and the duplicate options *)

(** [loadData], given how [Promise.all] of the two Apex calls settles. *)
Definition loadData
  (settled : Settled (OpportunityData.t * list Commission.t)) : Cmd :=
  assign (State.set_isLoading true) ;;
  assign (State.set_error None) ;;
  with_this (fun this =>
    emit (GetOpportunityData (State.opportunityId this)) ;;
    emit (GetExistingCommissions (State.opportunityId this))) ;;
  match settled with
  | Resolved (oppData, existingComm) =>
      assign (State.set_opportunityData oppData) ;;
      assign (State.set_existingCommissions existingComm) ;;
      assign (State.set_hasExistingCommissions
                (Nat.ltb 0 (List.length existingComm))) ;;
      initializeMatrix ;;
      with_this (fun this =>
        if State.hasExistingCommissions this
        then assign (State.set_showDuplicateOptions true)
        else skip)
  | Rejected error =>
      (* ('Error loading data: ' + error.body?.message) || error.message:
         the left operand is never empty *)
      let text := "Error loading data: " ++ JS.show (body_message error) in
      assign (State.set_error (Some text)) ;;
      showErrorToast text
  end ;;
  assign (State.set_isLoading false).

Definition connectedCallback := loadData.

Definition handleEditExisting : Cmd := initializeMatrix.

Definition handleCancel : Cmd :=
  assign (State.set_showDuplicateOptions false) ;;
  closeFlowAndRefresh.

(** [handleDeleteAndRecreate], given how [deleteExistingCommissions]
    settles. *)
Definition handleDeleteAndRecreate (settled : Settled unit) : Cmd :=
  assign (State.set_isProcessing true) ;;
  with_this (fun this =>
    emit (DeleteExistingCommissions (State.opportunityId this))) ;;
  match settled with
  | Resolved _ =>
      assign (State.set_existingCommissions []) ;;
      assign (State.set_hasExistingCommissions false) ;;
      initializeMatrix ;;
      showSuccessToast
        "Existing commissions deleted. You can now create new ones."
  | Rejected error =>
      showErrorToast ("Error deleting existing commissions: "
                      ++ JS.show (body_message error))
  end ;;
  assign (State.set_isProcessing false).

(** ** Matrix interaction handlers *)

Module Target.
(** What the handlers read from [event.target]: the [dataset] entries, the
    same attributes through [getAttribute], [checked], and
    [parseFloat(event.target.value)]. *)
Record t : Type := mk {
  dataset_lineItemId : option string;
  attr_lineItemId : option string;
  dataset_userId : option string;
  attr_userId : option string;
  checked : bool;
  value_parsed : float
}.

(** [dataset.lineItemId || getAttribute('data-line-item-id')] *)
Definition lineItemId (e : t) : option string :=
  JS.or_string (dataset_lineItemId e) (attr_lineItemId e).

(** [dataset.userId || getAttribute('data-user-id')] *)
Definition userId (e : t) : option string :=
  JS.or_string (dataset_userId e) (attr_userId e).
End Target.

(** [s === a] for a string [s] and a string property [a]. *)
Definition strict_eq (s : string) (a : option string) : bool :=
  match a with
  | Some s' => String.eqb s s'
  | None => false
  end.

(** The callback of [map] in [handleCheckboxChange]. *)
Definition checkbox_update (cellId : string) (isChecked : bool) (cell : Cell.t)
  : Cell.t :=
  if String.eqb (Cell.id cell) cellId
  then Cell.with_selected isChecked cell
  else cell.

(** [cellId] is computed before the guard and used only after it, when both
    identifiers are non-empty strings. *)
Definition handleCheckboxChange (event : Target.t) : Cmd :=
  let lineItemId := Target.lineItemId event in
  let userId := Target.userId event in
  let isChecked := Target.checked event in
  let cellId := cell_id (JS.show lineItemId) (JS.show userId) in
  if JS.falsy lineItemId || JS.falsy userId then skip
  else
    with_this (fun this =>
      let newMatrix :=
        map (checkbox_update cellId isChecked) (State.matrixData this) in
      assign (State.set_matrixData newMatrix)) ;;
    calculateTotals ;;
    forceRefresh.

Definition handleCellSelection := handleCheckboxChange.

(** The callback of [map] in [handlePercentageChange]. *)
Definition percentage_update (cellId : string) (percentageInput : float)
  (cell : Cell.t) : Cell.t :=
  if String.eqb (Cell.id cell) cellId
  then Cell.with_percentage percentageInput cell
  else cell.

Definition handlePercentageChange (event : Target.t) : Cmd :=
  let lineItemId := Target.lineItemId event in
  let userId := Target.userId event in
  let percentageInput := JS.float_or_zero (Target.value_parsed event) in
  let cellId := cell_id (JS.show lineItemId) (JS.show userId) in
  if JS.falsy lineItemId || JS.falsy userId then skip
  else
    with_this (fun this =>
      let newMatrix :=
        map (percentage_update cellId percentageInput)
            (State.matrixData this) in
      assign (State.set_matrixData newMatrix)) ;;
    calculateTotals ;;
    forceRefresh.

(** The callback of [map] in [handleSelectAllForLineItem]. *)
Definition lineItem_update (lineItemId : option string) (isChecked : bool)
  (cell : Cell.t) : Cell.t :=
  if strict_eq (Cell.lineItemId cell) lineItemId then
    if isChecked && PrimFloat.eqb (Cell.percentage cell) 0%float
    then Cell.with_percentage (Cell.defaultPercentage cell)
           (Cell.with_selected isChecked cell)
    else Cell.with_selected isChecked cell
  else cell.

Definition handleSelectAllForLineItem (event : Target.t) : Cmd :=
  let lineItemId := Target.lineItemId event in
  let isChecked := Target.checked event in
  if JS.falsy lineItemId then skip
  else
    with_this (fun this =>
      let newMatrix :=
        map (lineItem_update lineItemId isChecked) (State.matrixData this) in
      assign (State.set_matrixData newMatrix)) ;;
    calculateTotals ;;
    forceRefresh.

(** The callback of [map] in [handleSelectAllForTeamMember]. *)
Definition teamMember_update (userId : option string) (isChecked : bool)
  (cell : Cell.t) : Cell.t :=
  if strict_eq (Cell.userId cell) userId then
    if isChecked
    then Cell.with_percentage (Cell.defaultPercentage cell)
           (Cell.with_selected isChecked cell)
    else Cell.with_selected isChecked cell
  else cell.

Definition handleSelectAllForTeamMember (event : Target.t) : Cmd :=
  let userId := Target.dataset_userId event in
  let isChecked := Target.checked event in
  if JS.falsy userId then skip
  else
    with_this (fun this =>
      let newMatrix :=
        map (teamMember_update userId isChecked) (State.matrixData this) in
      assign (State.set_matrixData newMatrix)) ;;
    calculateTotals ;;
    forceRefresh.

(** ** handleGenerateCommissions *)

(** One element of [cellsForApex]. *)
Definition apex_cell (cell : Cell.t) : ApexCell.t :=
  {| ApexCell.lineItemId := Cell.lineItemId cell;
     ApexCell.userId := Cell.userId cell;
     ApexCell.selected := Cell.selected cell;
     ApexCell.percentage := Cell.percentage cell;
     ApexCell.amount := Cell.amount cell |}.

Definition newline : string := String (Ascii.ascii_of_nat 10) EmptyString.

(** [errorMsg] of the branch [result.success] false. *)
Definition submission_error_message (result : SubmitResult) : string :=
  let errorMsg :=
    JS.show (JS.or_string (errorMessage result)
                          (Some "Unknown error occurred")) in
  match partialErrors result with
  | Some (e :: es) =>
      errorMsg ++ newline ++ newline ++ "Details:" ++ newline
        ++ String.concat newline (e :: es)
  | Some [] | None => errorMsg
  end.

Definition select_at_least_one : string :=
  "Please select at least one commission to create.".

(** [handleGenerateCommissions], given how [createUpdateCommissions] settles
    when it is called. *)
Definition handleGenerateCommissions (settled : Settled SubmitResult) : Cmd :=
  assign (State.set_isProcessing true) ;;
  with_this (fun this =>
    let selectedCells := filter Cell.selected (State.matrixData this) in
    if Nat.eqb (List.length selectedCells) 0
    then showErrorToast select_at_least_one
    else
      let cellsForApex := map apex_cell selectedCells in
      emit (CreateUpdateCommissions (State.opportunityId this) cellsForApex) ;;
      match settled with
      | Resolved result =>
          if success result then
            let totalCreated := recordsCreated result + recordsUpdated result in
            assign (State.set_commissionsCreated totalCreated) ;;
            showSuccessToast
              ("Successfully processed " ++ JS.show_nat totalCreated
               ++ " commission records "
               ++ "(" ++ JS.show_nat (recordsCreated result) ++ " created, "
               ++ JS.show_nat (recordsUpdated result) ++ " updated)") ;;
            emit (SetTimeoutCloseFlow 1500)
          else showErrorToast (submission_error_message result)
      | Rejected error =>
          showErrorToast ("Error creating commissions: "
                          ++ JS.show (body_message error))
      end) ;;
  assign (State.set_isProcessing false).

(** ** Getters for the template *)

(** [lineItems?.length > 0 && teamMembers?.length > 0]: for a missing list
    the comparison is [undefined > 0], which is false. *)
Definition hasData (this : State.t) : bool :=
  match OpportunityData.lineItems (State.opportunityData this) with
  | Some lineItems => Nat.ltb 0 (List.length lineItems)
  | None => false
  end
  && match OpportunityData.teamMembers (State.opportunityData this) with
     | Some teamMembers => Nat.ltb 0 (List.length teamMembers)
     | None => false
     end.

Definition buttonDisabled (this : State.t) : bool :=
  negb (hasData this) || State.isProcessing this
  || Nat.eqb (State.totalCommissions this) 0.

(** [xs || []] for a list property. *)
Definition or_empty {A : Type} (xs : option (list A)) : list A :=
  match xs with
  | Some l => l
  | None => []
  end.

(** The getter [teamMembers]. *)
Definition teamMembers (this : State.t) : list TeamMember.t :=
  or_empty (OpportunityData.teamMembers (State.opportunityData this)).

(** What [getMatrixCell] returns; [match_] is its property [match]. *)
Module MatrixCell.
Record t : Type := mk {
  selected : bool;
  percentage : float;
  amount : float;
  formattedAmount : string;
  match_ : bool;
  key : string
}.
End MatrixCell.

(** A cell of a row of [matrixDisplay]: the pair's identifiers and name
    followed by the spread of the [getMatrixCell] result. *)
Module DisplayCell.
Record t : Type := mk {
  lineItemId : string;
  userId : string;
  teamMemberName : option string;
  cellData : MatrixCell.t
}.
End DisplayCell.

(** A row of [matrixDisplay]: the line item with its [formattedMargin], and
    the cells. *)
Module DisplayRow.
Record t : Type := mk {
  lineItem : LineItem.t;
  formattedMargin : string;
  cells : list DisplayCell.t
}.
End DisplayRow.

Section Display.

(** The method [formatCurrency], which hands the amount to
    [Intl.NumberFormat] with the currency of the opportunity. *)
Variable formatCurrency : float -> string.

Definition getMatrixCell (this : State.t) (lineItemId userId : string)
  : MatrixCell.t :=
  let cell :=
    find (fun cell =>
            String.eqb (Cell.lineItemId cell) lineItemId
            && String.eqb (Cell.userId cell) userId)
         (State.matrixData this) in
  match cell with
  | Some cell =>
      {| MatrixCell.selected := Cell.selected cell;
         MatrixCell.percentage := Cell.percentage cell;
         MatrixCell.amount := Cell.amount cell;
         MatrixCell.formattedAmount := formatCurrency (Cell.amount cell);
         MatrixCell.match_ := true;
         MatrixCell.key := Cell.id cell |}
  | None =>
      {| MatrixCell.selected := false;
         MatrixCell.percentage := 0%float;
         MatrixCell.amount := 0%float;
         MatrixCell.formattedAmount := formatCurrency 0%float;
         MatrixCell.match_ := false;
         MatrixCell.key := lineItemId ++ "_" ++ userId |}
  end.

(** The getter [matrixDisplay]. *)
Definition matrixDisplay (this : State.t) : list DisplayRow.t :=
  map (fun lineItem =>
         {| DisplayRow.lineItem := lineItem;
            DisplayRow.formattedMargin :=
              formatCurrency (JS.or_zero (LineItem.Line_Margin__c lineItem));
            DisplayRow.cells :=
              map (fun teamMember =>
                     let cellData :=
                       getMatrixCell this (LineItem.Id lineItem)
                                     (TeamMember.userId teamMember) in
                     {| DisplayCell.lineItemId := LineItem.Id lineItem;
                        DisplayCell.userId := TeamMember.userId teamMember;
                        DisplayCell.teamMemberName :=
                          TeamMember.name teamMember;
                        DisplayCell.cellData := cellData |})
                  (or_empty (OpportunityData.teamMembers
                               (State.opportunityData this))) |})
      (or_empty (OpportunityData.lineItems (State.opportunityData this))).

End Display.

(** ** The interactions of a session *)

(** What can happen to a mounted component: the load started by
    [connectedCallback], the three answers to the duplicate options, the four
    matrix handlers and the submission; an awaited Apex call comes with the
    way it settles. *)
Inductive Interaction : Type :=
| Load (settled : Settled (OpportunityData.t * list Commission.t))
| EditExisting
| Cancel
| DeleteAndRecreate (settled : Settled unit)
| CheckboxChange (event : Target.t)
| PercentageChange (event : Target.t)
| SelectAllForLineItem (event : Target.t)
| SelectAllForTeamMember (event : Target.t)
| GenerateCommissions (settled : Settled SubmitResult).

Definition handle (i : Interaction) : Cmd :=
  match i with
  | Load settled => loadData settled
  | EditExisting => handleEditExisting
  | Cancel => handleCancel
  | DeleteAndRecreate settled => handleDeleteAndRecreate settled
  | CheckboxChange event => handleCheckboxChange event
  | PercentageChange event => handlePercentageChange event
  | SelectAllForLineItem event => handleSelectAllForLineItem event
  | SelectAllForTeamMember event => handleSelectAllForTeamMember event
  | GenerateCommissions settled => handleGenerateCommissions settled
  end.

(** The states a component created for [opportunityId] can be in. *)
Inductive reachable (opportunityId : string) : State.t -> Prop :=
| reachable_initial : reachable opportunityId (State.initial opportunityId)
| reachable_step s i :
    reachable opportunityId s ->
    reachable opportunityId (exec (handle i) s).

(** ** Specification vocabulary *)

(** The amount rule of the specification:
    [selected ? margin * percentage/100 : 0]. *)
Definition amount_rule (c : Cell.t) : float :=
  if Cell.selected c
  then (Cell.lineMargin c * (Cell.percentage c / 100))%float
  else 0%float.

(** The cell with its amount brought in line with the rule. *)
Definition settle (c : Cell.t) : Cell.t := Cell.with_amount (amount_rule c) c.

(** The cells with [selected] true, in grid order. *)
Definition selected_cells (grid : list Cell.t) : list Cell.t :=
  filter Cell.selected grid.

(** The sum of a sequence of amounts, added from the left starting at 0. *)
Definition sum_amounts (amounts : list float) : float :=
  fold_left PrimFloat.add amounts 0%float.

(** A grid with its totals is settled when every amount follows the rule and
    the two totals are the count and the sum over the selected cells. *)
Record settled_totals (grid : list Cell.t) (count : nat) (total : float)
  : Prop := {
  amounts_follow_rule :
    Forall (fun c => Cell.amount c = amount_rule c) grid;
  count_is_selected : count = List.length (selected_cells grid);
  total_is_sum : total = sum_amounts (map Cell.amount (selected_cells grid))
}.

Definition settled (s : State.t) : Prop :=
  settled_totals (State.matrixData s) (State.totalCommissions s)
                 (State.totalAmount s).

(** The shape shared by the four matrix handlers: past its guard, a handler
    maps a callback over the grid, stores the result, recomputes the totals
    and bumps the refresh key. *)
Definition mutate (f : Cell.t -> Cell.t) : Cmd :=
  with_this (fun this =>
    assign (State.set_matrixData (map f (State.matrixData this)))) ;;
  calculateTotals ;;
  forceRefresh.

(** The record belongs to the pair: its line item and user references are
    the pair's identifiers. *)
Definition record_of (comm : Commission.t) (li : LineItem.t) (tm : TeamMember.t)
  : Prop :=
  Commission.OpportunityLineItem__c comm = LineItem.Id li
  /\ Commission.User__c comm = TeamMember.userId tm.

(** A number other than [NaN] and [-0]. *)
Definition ordinary (d : float) : Prop :=
  PrimFloat.is_nan d = false /\ d <> (-0)%float.

(** The fields no handler writes. *)
Definition same_fixed_fields (c c' : Cell.t) : Prop :=
  Cell.id c' = Cell.id c
  /\ Cell.lineItemId c' = Cell.lineItemId c
  /\ Cell.userId c' = Cell.userId c
  /\ Cell.lineItemName c' = Cell.lineItemName c
  /\ Cell.teamMemberName c' = Cell.teamMemberName c
  /\ Cell.teamMemberRole c' = Cell.teamMemberRole c
  /\ Cell.lineMargin c' = Cell.lineMargin c
  /\ Cell.defaultPercentage c' = Cell.defaultPercentage c
  /\ Cell.existingCommissionId c' = Cell.existingCommissionId c.

(** No ['-'] occurs in the string; Salesforce record ids are alphanumeric. *)
Fixpoint dash_free (s : string) : bool :=
  match s with
  | EmptyString => true
  | String a rest => negb (Ascii.eqb a "-"%char) && dash_free rest
  end.

(** The cell carries the identifier of its own pair. *)
Definition keyed (c : Cell.t) : Prop :=
  Cell.id c = cell_id (Cell.lineItemId c) (Cell.userId c).

(** What a submission with nothing selected produces: the validation toast
    and nothing else. *)
Definition validation_failure : list Effect :=
  [ShowToast "Error" select_at_least_one "error"].

(** The calls of Apex methods among the effects. *)
Definition is_backend_call (e : Effect) : bool :=
  match e with
  | GetOpportunityData _ | GetExistingCommissions _
  | DeleteExistingCommissions _ | CreateUpdateCommissions _ _ => true
  | ShowToast _ _ _ | CloseActionScreen | Navigate _ _
  | SetTimeoutCloseFlow _ => false
  end.

Definition backend_calls (effects : list Effect) : list Effect :=
  filter is_backend_call effects.

(** The shape sent for a cell. *)
Definition projected (cell : Cell.t) (sent : ApexCell.t) : Prop :=
  ApexCell.lineItemId sent = Cell.lineItemId cell
  /\ ApexCell.userId sent = Cell.userId cell
  /\ ApexCell.selected sent = Cell.selected cell
  /\ ApexCell.percentage sent = Cell.percentage cell
  /\ ApexCell.amount sent = Cell.amount cell.

(** The pairs the two nested loops of [initializeMatrix] visit, in order. *)
Definition pairs_of (data : OpportunityData.t)
  : list (LineItem.t * TeamMember.t) :=
  list_prod (or_empty (OpportunityData.lineItems data))
            (or_empty (OpportunityData.teamMembers data)).

(** The grid mirrors the loaded data: cell by cell, in the order of the
    pairs, the fields no handler writes are those the reconciler derives
    from the pair and the stored records. *)
Definition mirrors_loaded_data (s : State.t) : Prop :=
  Forall2
    (fun c pair =>
       same_fixed_fields
         (new_cell (State.existingCommissions s) (fst pair) (snd pair)) c)
    (State.matrixData s) (pairs_of (State.opportunityData s)).

(** The fields of the component that the matrix handlers leave alone. *)
Definition same_session_fields (s s' : State.t) : Prop :=
  State.opportunityId s' = State.opportunityId s
  /\ State.commissionsCreated s' = State.commissionsCreated s
  /\ State.opportunityData s' = State.opportunityData s
  /\ State.existingCommissions s' = State.existingCommissions s
  /\ State.isLoading s' = State.isLoading s
  /\ State.hasExistingCommissions s' = State.hasExistingCommissions s
  /\ State.showDuplicateOptions s' = State.showDuplicateOptions s
  /\ State.error s' = State.error s
  /\ State.isProcessing s' = State.isProcessing s.

(** The frame of a toggle as the specification words it: the cell of the key
    gets [selected] and changes in nothing else, every other cell stays as
    it is. *)
Definition toggle_only_selects (lineItemId userId : string) (checked : bool)
  (grid grid' : list Cell.t) : Prop :=
  Forall2
    (fun c c' =>
       (Cell.lineItemId c = lineItemId /\ Cell.userId c = userId ->
        c' = Cell.with_selected checked c)
       /\ (~ (Cell.lineItemId c = lineItemId /\ Cell.userId c = userId) ->
           c' = c))
    grid grid'.

(** ** A small opportunity used to exercise the statements *)

Module Example.

Definition lineItems : list LineItem.t :=
  [ LineItem.mk "00kA" (Some "Widget") (Some "Widget Pro") (JS.Num 1000);
    LineItem.mk "00kB" (Some "Gadget") None (JS.Num 250) ].

Definition teamMembers : list TeamMember.t :=
  [ TeamMember.mk "005X" (Some "Ana") (Some "Sales Rep") (JS.Num 10);
    TeamMember.mk "005Y" (Some "Ben") (Some "Sales Manager") (JS.Num 5) ].

Definition data : OpportunityData.t :=
  OpportunityData.mk (Some lineItems) (Some teamMembers).

(** Two stored records: one with the rate kept as a fraction, one without a
    rate. *)
Definition commissions : list Commission.t :=
  [ Commission.mk "a0C1" "00kA" "005Y" (JS.Num 0.15);
    Commission.mk "a0C2" "00kB" "005X" JS.Undefined ].

(** The component after a successful load. *)
Definition loaded : State.t :=
  exec (handle (Load (Resolved (data, commissions)))) (State.initial "006Z").

(** The component after a load that found no stored record. *)
Definition fresh : State.t :=
  exec (handle (Load (Resolved (data, [])))) (State.initial "006Z").

(** The target of an event on the controls of a pair: its checkbox state and
    the number typed into its rate input. *)
Definition target (lineItemId userId : string) (checked : bool)
  (value : float) : Target.t :=
  Target.mk (Some lineItemId) (Some lineItemId) (Some userId) (Some userId)
            checked value.

Definition click (lineItemId userId : string) (checked : bool) : Target.t :=
  target lineItemId userId checked PrimFloat.nan.

(** The loaded component after the rates of the second line item were typed
    over: 12 for the first team member, 0 for the second. *)
Definition edited : State.t :=
  exec (handle (PercentageChange (target "00kB" "005Y" false 0)))
    (exec (handle (PercentageChange (target "00kB" "005X" false 12))) loaded).

(** An opportunity whose identifiers contain dashes, so that two pairs share
    the cell identifier [a-b-c]; margins are absent, so every amount is 0. *)
Definition dashed_data : OpportunityData.t :=
  OpportunityData.mk
    (Some [ LineItem.mk "a-b" None None JS.Undefined;
            LineItem.mk "a" None None JS.Undefined ])
    (Some [ TeamMember.mk "c" None None (JS.Num 10);
            TeamMember.mk "b-c" None None (JS.Num 10) ]).

Definition dashed : State.t :=
  exec (handle (Load (Resolved (dashed_data, [])))) (State.initial "006Z").

End Example.

(** ** Running commands *)

Lemma exec_seq (c1 c2 : Cmd) (s : State.t) :
  exec (c1 ;; c2) s = exec c2 (exec c1 s).
Proof.
  unfold exec, seq. destruct (c1 s) as [s1 l1]. simpl.
  destruct (c2 s1) as [s2 l2]. reflexivity.
Qed.

Lemma trace_seq (c1 c2 : Cmd) (s : State.t) :
  trace (c1 ;; c2) s = (trace c1 s ++ trace c2 (exec c1 s))%list.
Proof.
  unfold trace, exec, seq. destruct (c1 s) as [s1 l1]. simpl.
  destruct (c2 s1) as [s2 l2]. reflexivity.
Qed.

Lemma exec_with_this (k : State.t -> Cmd) (s : State.t) :
  exec (with_this k) s = exec (k s) s.
Proof. reflexivity. Qed.

Lemma trace_with_this (k : State.t -> Cmd) (s : State.t) :
  trace (with_this k) s = trace (k s) s.
Proof. reflexivity. Qed.

Lemma exec_assign (f : State.t -> State.t) (s : State.t) :
  exec (assign f) s = f s.
Proof. reflexivity. Qed.

Lemma trace_assign (f : State.t -> State.t) (s : State.t) :
  trace (assign f) s = [].
Proof. reflexivity. Qed.

Lemma exec_emit (e : Effect) (s : State.t) : exec (emit e) s = s.
Proof. reflexivity. Qed.

Lemma trace_emit (e : Effect) (s : State.t) : trace (emit e) s = [e].
Proof. reflexivity. Qed.

Lemma exec_skip (s : State.t) : exec skip s = s.
Proof. reflexivity. Qed.

Lemma trace_skip (s : State.t) : trace skip s = [].
Proof. reflexivity. Qed.

Create Rewrite HintDb run.
#[export] Hint Rewrite exec_seq trace_seq exec_with_this trace_with_this
  exec_assign trace_assign exec_emit trace_emit exec_skip trace_skip : run.

Ltac run := autorewrite with run; cbn [showSuccessToast showErrorToast].

(** A percentage known to be a given number contradicts the recorded outcome
    of its comparison with 0. *)
Ltac float_absurd Hp Hzero :=
  rewrite Hp in Hzero; vm_compute in Hzero; discriminate Hzero.

(** ** The totals pass *)

Lemma cell_amount_rule (c : Cell.t) : cell_amount c = amount_rule c.
Proof. reflexivity. Qed.

Lemma totals_pass_spec (cells : list Cell.t) (n : nat) (a : float) :
  totals_pass cells n a =
    (map settle cells,
     n + List.length (selected_cells cells),
     fold_left PrimFloat.add (map amount_rule (selected_cells cells)) a).
Proof.
  revert n a. induction cells as [|c rest IH]; intros n a; simpl.
  - now rewrite Nat.add_0_r.
  - rewrite IH. unfold settle at 1. rewrite cell_amount_rule.
    destruct (Cell.selected c) eqn:Hsel; simpl.
    + now rewrite Nat.add_succ_r.
    + reflexivity.
Qed.

Lemma settle_selected (c : Cell.t) : Cell.selected (settle c) = Cell.selected c.
Proof. reflexivity. Qed.

Lemma settle_amount (c : Cell.t) : Cell.amount (settle c) = amount_rule c.
Proof. reflexivity. Qed.

Lemma amount_rule_settle (c : Cell.t) : amount_rule (settle c) = amount_rule c.
Proof. reflexivity. Qed.

Lemma settle_idempotent (c : Cell.t) : settle (settle c) = settle c.
Proof. reflexivity. Qed.

Lemma settle_fixed (c : Cell.t) :
  Cell.amount c = amount_rule c -> settle c = c.
Proof.
  intros H. unfold settle. rewrite <- H. now destruct c.
Qed.

Lemma selected_cells_settle (cells : list Cell.t) :
  selected_cells (map settle cells) = map settle (selected_cells cells).
Proof.
  induction cells as [|c rest IH]; simpl; [reflexivity|].
  destruct (Cell.selected c); simpl; now rewrite IH.
Qed.

Lemma map_settle_fixed (cells : list Cell.t) :
  Forall (fun c => Cell.amount c = amount_rule c) cells ->
  map settle cells = cells.
Proof.
  induction 1 as [|c rest Hc _ IH]; simpl; [reflexivity|].
  now rewrite IH, settle_fixed.
Qed.

(** The state [calculateTotals] leaves. *)
Lemma exec_calculateTotals (s : State.t) :
  exec calculateTotals s =
    State.set_totalAmount
      (sum_amounts (map amount_rule (selected_cells (State.matrixData s))))
      (State.set_totalCommissions
         (List.length (selected_cells (State.matrixData s)))
         (State.set_matrixData (map settle (State.matrixData s)) s)).
Proof.
  unfold calculateTotals. rewrite exec_with_this, totals_pass_spec.
  now run.
Qed.

Lemma trace_calculateTotals (s : State.t) : trace calculateTotals s = [].
Proof.
  unfold calculateTotals. rewrite trace_with_this, totals_pass_spec.
  now run.
Qed.

Lemma matrixData_calculateTotals (s : State.t) :
  State.matrixData (exec calculateTotals s) = map settle (State.matrixData s).
Proof. now rewrite exec_calculateTotals. Qed.

Lemma settled_totals_settle (cells : list Cell.t) :
  settled_totals (map settle cells)
    (List.length (selected_cells cells))
    (sum_amounts (map amount_rule (selected_cells cells))).
Proof.
  split.
  - apply Forall_forall. intros c' Hin. apply in_map_iff in Hin.
    destruct Hin as [c [<- _]]. reflexivity.
  - now rewrite selected_cells_settle, length_map.
  - rewrite selected_cells_settle, map_map. f_equal.
Qed.

Lemma calculateTotals_settles (s : State.t) : settled (exec calculateTotals s).
Proof.
  rewrite exec_calculateTotals. apply settled_totals_settle.
Qed.

(** The order of the operations in the amount matters in binary64: dividing
    the percentage first, as [calculateTotals] does, and dividing the product
    can differ in the last place. *)
Example amount_rule_rounding :
  amount_rule (Cell.mk "a-b" "a" "b" None None None 3 true 7 7 0 None)
  = 0.21000000000000002%float
  /\ (3 * 7 / 100)%float = 0.21%float.
Proof. split; reflexivity. Qed.

(** ** The shape shared by the four matrix handlers *)

Lemma matrixData_mutate (f : Cell.t -> Cell.t) (s : State.t) :
  State.matrixData (exec (mutate f) s)
  = map (fun c => settle (f c)) (State.matrixData s).
Proof.
  unfold mutate, forceRefresh. run. rewrite exec_calculateTotals. simpl.
  apply map_map.
Qed.

Lemma trace_mutate (f : Cell.t -> Cell.t) (s : State.t) :
  trace (mutate f) s = [].
Proof.
  unfold mutate, forceRefresh. run. now rewrite trace_calculateTotals.
Qed.

Lemma settled_same_totals (s s' : State.t) :
  State.matrixData s' = State.matrixData s ->
  State.totalCommissions s' = State.totalCommissions s ->
  State.totalAmount s' = State.totalAmount s ->
  settled s -> settled s'.
Proof.
  unfold settled. intros -> -> ->. exact (fun H => H).
Qed.

Lemma mutate_settles (f : Cell.t -> Cell.t) (s : State.t) :
  settled (exec (mutate f) s).
Proof.
  unfold mutate, forceRefresh. rewrite !exec_seq, (exec_assign _ (exec _ _)).
  eapply settled_same_totals; [ | | | apply calculateTotals_settles];
    reflexivity.
Qed.

Lemma handleCheckboxChange_cases (event : Target.t) :
  handleCheckboxChange event = skip
  \/ exists lineItemId userId,
       Target.lineItemId event = Some lineItemId
       /\ Target.userId event = Some userId
       /\ lineItemId <> "" /\ userId <> ""
       /\ handleCheckboxChange event
          = mutate (checkbox_update (cell_id lineItemId userId)
                                    (Target.checked event)).
Proof.
  unfold handleCheckboxChange.
  destruct (Target.lineItemId event) as [[|a l]|];
    destruct (Target.userId event) as [[|b u]|]; simpl; auto.
  right. exists (String a l), (String b u). repeat split; congruence.
Qed.

Lemma handlePercentageChange_cases (event : Target.t) :
  handlePercentageChange event = skip
  \/ exists lineItemId userId,
       Target.lineItemId event = Some lineItemId
       /\ Target.userId event = Some userId
       /\ lineItemId <> "" /\ userId <> ""
       /\ handlePercentageChange event
          = mutate (percentage_update (cell_id lineItemId userId)
                      (JS.float_or_zero (Target.value_parsed event))).
Proof.
  unfold handlePercentageChange.
  destruct (Target.lineItemId event) as [[|a l]|];
    destruct (Target.userId event) as [[|b u]|]; simpl; auto.
  right. exists (String a l), (String b u). repeat split; congruence.
Qed.

Lemma handleSelectAllForLineItem_cases (event : Target.t) :
  handleSelectAllForLineItem event = skip
  \/ exists lineItemId,
       Target.lineItemId event = Some lineItemId /\ lineItemId <> ""
       /\ handleSelectAllForLineItem event
          = mutate (lineItem_update (Some lineItemId) (Target.checked event)).
Proof.
  unfold handleSelectAllForLineItem.
  destruct (Target.lineItemId event) as [[|a l]|]; simpl; auto.
  right. exists (String a l). repeat split; congruence.
Qed.

Lemma handleSelectAllForTeamMember_cases (event : Target.t) :
  handleSelectAllForTeamMember event = skip
  \/ exists userId,
       Target.dataset_userId event = Some userId /\ userId <> ""
       /\ handleSelectAllForTeamMember event
          = mutate (teamMember_update (Some userId) (Target.checked event)).
Proof.
  unfold handleSelectAllForTeamMember.
  destruct (Target.dataset_userId event) as [[|b u]|]; simpl; auto.
  right. exists (String b u). repeat split; congruence.
Qed.

(** A matrix handler either stops at its guard, leaving the component as it
    was, or leaves a settled grid. *)
Lemma handleCheckboxChange_settles (event : Target.t) (s : State.t) :
  exec (handleCheckboxChange event) s = s
  \/ settled (exec (handleCheckboxChange event) s).
Proof.
  destruct (handleCheckboxChange_cases event)
    as [-> | (l & u & _ & _ & _ & _ & ->)];
    [left; reflexivity | right; apply mutate_settles].
Qed.

Lemma handlePercentageChange_settles (event : Target.t) (s : State.t) :
  exec (handlePercentageChange event) s = s
  \/ settled (exec (handlePercentageChange event) s).
Proof.
  destruct (handlePercentageChange_cases event)
    as [-> | (l & u & _ & _ & _ & _ & ->)];
    [left; reflexivity | right; apply mutate_settles].
Qed.

Lemma handleSelectAllForLineItem_settles (event : Target.t) (s : State.t) :
  exec (handleSelectAllForLineItem event) s = s
  \/ settled (exec (handleSelectAllForLineItem event) s).
Proof.
  destruct (handleSelectAllForLineItem_cases event) as [-> | (l & _ & _ & ->)];
    [left; reflexivity | right; apply mutate_settles].
Qed.

Lemma handleSelectAllForTeamMember_settles (event : Target.t) (s : State.t) :
  exec (handleSelectAllForTeamMember event) s = s
  \/ settled (exec (handleSelectAllForTeamMember event) s).
Proof.
  destruct (handleSelectAllForTeamMember_cases event) as [-> | (u & _ & _ & ->)];
    [left; reflexivity | right; apply mutate_settles].
Qed.

(** ** Reconciliation leaves a settled grid *)

Lemma matrixData_initializeMatrix (s : State.t) :
  State.matrixData (exec initializeMatrix s)
  = map settle (build_matrix (State.opportunityData s)
                             (State.existingCommissions s)).
Proof.
  unfold initializeMatrix. run. now rewrite exec_calculateTotals.
Qed.

Lemma trace_initializeMatrix (s : State.t) : trace initializeMatrix s = [].
Proof.
  unfold initializeMatrix. run. now rewrite trace_calculateTotals.
Qed.

Lemma initializeMatrix_settles (s : State.t) :
  settled (exec initializeMatrix s).
Proof.
  unfold initializeMatrix. rewrite !exec_seq, (exec_assign _ (exec _ _)).
  eapply settled_same_totals; [ | | | apply calculateTotals_settles];
    reflexivity.
Qed.

(** ** Every interaction keeps the grid settled *)

Lemma initial_settled (opportunityId : string) :
  settled (State.initial opportunityId).
Proof. split; simpl; [constructor | reflexivity | reflexivity]. Qed.

Lemma loadData_settled
  (r : Settled (OpportunityData.t * list Commission.t)) (s : State.t) :
  settled s -> settled (exec (loadData r) s).
Proof.
  intros Hs. unfold loadData. destruct r as [[oppData existingComm]|err].
  - run.
    match goal with
    | |- context [exec initializeMatrix ?t] =>
        pose proof (initializeMatrix_settles t) as Hi;
        destruct (State.hasExistingCommissions (exec initializeMatrix t))
    end; run; exact Hi.
  - run. exact Hs.
Qed.

Lemma handleCancel_settled (s : State.t) :
  settled s -> settled (exec handleCancel s).
Proof. intros Hs. unfold handleCancel, closeFlowAndRefresh. run. exact Hs. Qed.

Lemma handleDeleteAndRecreate_settled (r : Settled unit) (s : State.t) :
  settled s -> settled (exec (handleDeleteAndRecreate r) s).
Proof.
  intros Hs. unfold handleDeleteAndRecreate. destruct r as [u|err]; run.
  - match goal with
    | |- context [exec initializeMatrix ?t] =>
        exact (initializeMatrix_settles t)
    end.
  - exact Hs.
Qed.

Lemma handleGenerateCommissions_grid (r : Settled SubmitResult) (s : State.t) :
  State.matrixData (exec (handleGenerateCommissions r) s) = State.matrixData s
  /\ State.totalCommissions (exec (handleGenerateCommissions r) s)
     = State.totalCommissions s
  /\ State.totalAmount (exec (handleGenerateCommissions r) s)
     = State.totalAmount s
  /\ State.existingCommissions (exec (handleGenerateCommissions r) s)
     = State.existingCommissions s.
Proof.
  unfold handleGenerateCommissions. run. simpl.
  destruct (Nat.eqb _ 0); [run; auto|].
  destruct r as [result|err]; [destruct (success result)|]; run; auto.
Qed.

Lemma handleGenerateCommissions_settled
  (r : Settled SubmitResult) (s : State.t) :
  settled s -> settled (exec (handleGenerateCommissions r) s).
Proof.
  destruct (handleGenerateCommissions_grid r s) as (Hm & Hc & Ha & _).
  now apply settled_same_totals.
Qed.

Lemma handle_settled (i : Interaction) (s : State.t) :
  settled s -> settled (exec (handle i) s).
Proof.
  intros Hs. destruct i as [r| | |r|e|e|e|e|r]; simpl.
  - now apply loadData_settled.
  - apply initializeMatrix_settles.
  - now apply handleCancel_settled.
  - now apply handleDeleteAndRecreate_settled.
  - destruct (handleCheckboxChange_settles e s) as [-> | H]; assumption.
  - destruct (handlePercentageChange_settles e s) as [-> | H]; assumption.
  - destruct (handleSelectAllForLineItem_settles e s) as [-> | H]; assumption.
  - destruct (handleSelectAllForTeamMember_settles e s) as [-> | H]; assumption.
  - now apply handleGenerateCommissions_settled.
Qed.

(** ** The grid built by the reconciler *)

Lemma flat_map_singleton {A B : Type} (f : A -> B) (l : list A) :
  flat_map (fun x => [f x]) l = map f l.
Proof. induction l as [|x l IH]; simpl; [reflexivity | now rewrite IH]. Qed.

(** The two nested loops visit the cross product row by row. *)
Lemma build_matrix_loaded (data : OpportunityData.t)
  (existing : list Commission.t) lineItems teamMembers :
  OpportunityData.lineItems data = Some lineItems ->
  OpportunityData.teamMembers data = Some teamMembers ->
  build_matrix data existing
  = map (fun p => new_cell existing (fst p) (snd p))
        (list_prod lineItems teamMembers).
Proof.
  intros Hl Ht. unfold build_matrix. rewrite Hl, Ht. simpl. clear Hl Ht.
  induction lineItems as [|li rest IH]; simpl; [reflexivity|].
  rewrite IH, map_app, map_map, flat_map_singleton. reflexivity.
Qed.

Lemma nth_error_list_prod {A B : Type} (l : list A) (l' : list B) i j a b :
  nth_error l i = Some a ->
  nth_error l' j = Some b ->
  nth_error (list_prod l l') (i * List.length l' + j) = Some (a, b).
Proof.
  revert i. induction l as [|x l IH]; intros i Hi Hj.
  - destruct i; discriminate.
  - assert (Hlt : j < List.length l') by (apply nth_error_Some; congruence).
    destruct i as [|i]; simpl in *.
    + injection Hi as ->.
      rewrite nth_error_app1 by now rewrite length_map.
      now rewrite nth_error_map, Hj.
    + rewrite nth_error_app2 by (rewrite length_map; lia).
      rewrite length_map.
      replace (List.length l' + i * List.length l' + j - List.length l')
        with (i * List.length l' + j) by lia.
      now apply IH.
Qed.

(** The cell of the [i]-th line item and the [j]-th team member sits at
    position [i * teamMembers.length + j]. *)
Lemma initializeMatrix_cell (s : State.t) lineItems teamMembers i j li tm :
  OpportunityData.lineItems (State.opportunityData s) = Some lineItems ->
  OpportunityData.teamMembers (State.opportunityData s) = Some teamMembers ->
  nth_error lineItems i = Some li ->
  nth_error teamMembers j = Some tm ->
  nth_error (State.matrixData (exec initializeMatrix s))
            (i * List.length teamMembers + j)
  = Some (settle (new_cell (State.existingCommissions s) li tm)).
Proof.
  intros Hl Ht Hi Hj.
  rewrite matrixData_initializeMatrix, (build_matrix_loaded _ _ _ _ Hl Ht).
  rewrite map_map, nth_error_map.
  now rewrite (nth_error_list_prod _ _ _ _ _ _ Hi Hj).
Qed.

(** ** Looking up the stored record of a pair *)

Lemma find_callback_record_of comm li tm :
  String.eqb (Commission.OpportunityLineItem__c comm) (LineItem.Id li)
  && String.eqb (Commission.User__c comm) (TeamMember.userId tm) = true
  <-> record_of comm li tm.
Proof.
  unfold record_of. rewrite andb_true_iff, !String.eqb_eq. reflexivity.
Qed.

(** The lookup returns the first record of the pair. *)
Lemma findExistingCommission_first existing li tm :
  match findExistingCommission existing (LineItem.Id li) (TeamMember.userId tm)
  with
  | Some comm =>
      exists before after,
        existing = (before ++ comm :: after)%list
        /\ record_of comm li tm
        /\ forall other, In other before -> ~ record_of other li tm
  | None => forall other, In other existing -> ~ record_of other li tm
  end.
Proof.
  unfold findExistingCommission.
  induction existing as [|c rest IH]; simpl.
  - intros other [].
  - destruct (String.eqb (Commission.OpportunityLineItem__c c) (LineItem.Id li)
              && String.eqb (Commission.User__c c) (TeamMember.userId tm))
      eqn:Hc.
    + exists [], rest.
      split; [reflexivity|].
      split; [now apply find_callback_record_of | intros other []].
    + assert (Hnot : ~ record_of c li tm).
      { intros H. apply find_callback_record_of in H. congruence. }
      destruct (find _ rest) as [comm|].
      * destruct IH as (before & after & -> & Hrec & Hbefore).
        exists (c :: before), after.
        split; [reflexivity|]. split; [exact Hrec|].
        intros other [<- | Hin]; [exact Hnot | now apply Hbefore].
      * intros other [<- | Hin]; [exact Hnot | now apply IH].
Qed.

(** When the pair has one record in the set, the lookup returns it. *)
Lemma findExistingCommission_unique existing li tm comm :
  In comm existing ->
  record_of comm li tm ->
  (forall other, In other existing -> record_of other li tm -> other = comm) ->
  findExistingCommission existing (LineItem.Id li) (TeamMember.userId tm)
  = Some comm.
Proof.
  intros Hin Hrec Huniq.
  pose proof (findExistingCommission_first existing li tm) as H.
  destruct (findExistingCommission _ _ _) as [found|].
  - destruct H as (before & after & -> & Hfound & _).
    f_equal. apply Huniq; [|exact Hfound].
    apply in_or_app. right. now left.
  - now destruct (H comm Hin).
Qed.

(** ** Numbers that [|| 0] leaves alone *)

Lemma float_eqb_zero (d : float) :
  PrimFloat.eqb d 0%float = true -> d = 0%float \/ d = (-0)%float.
Proof.
  rewrite FloatAxioms.eqb_spec. intros H.
  rewrite <- (SF2Prim_Prim2SF d).
  destruct (Prim2SF d) as [sign|sign| |sign m e]; vm_compute in H;
    try discriminate; destruct sign; try discriminate.
  - right. reflexivity.
  - left. reflexivity.
Qed.

Lemma float_or_zero_ordinary (d : float) :
  ordinary d -> JS.float_or_zero d = d.
Proof.
  intros [Hnan Hneg]. unfold JS.float_or_zero, JS.truthy_float.
  rewrite Hnan. simpl.
  destruct (PrimFloat.eqb d 0%float) eqn:Hz; simpl; [|reflexivity].
  destruct (float_eqb_zero d Hz) as [-> | ->]; [reflexivity | contradiction].
Qed.

Lemma or_zero_ordinary (d : float) : ordinary d -> JS.or_zero (JS.Num d) = d.
Proof. exact (float_or_zero_ordinary d). Qed.

(** *** Claim C1 *)

(** C1. After initial reconciliation and after every mutation the grid is
    settled: each cell's amount is its margin times its percentage over 100
    (computed as [lineMargin * (percentage / 100)]) when the cell is selected
    and 0 otherwise, [totalCommissions] is the number of selected cells, and
    [totalAmount] is the sum of the amounts of the selected cells, added in
    grid order. [initializeMatrix] settles any state, and the margin of a
    cell it builds is the margin of the cell's line item; each of the four
    matrix handlers either stops at its guard without touching the component
    or leaves a settled state; hence every state of a session is settled. *)
Theorem amounts_and_totals_settled :
  (forall s, settled (exec initializeMatrix s))
  /\ (forall s lineItems teamMembers i j li tm,
        OpportunityData.lineItems (State.opportunityData s) = Some lineItems ->
        OpportunityData.teamMembers (State.opportunityData s)
        = Some teamMembers ->
        nth_error lineItems i = Some li ->
        nth_error teamMembers j = Some tm ->
        exists cell,
          nth_error (State.matrixData (exec initializeMatrix s))
                    (i * List.length teamMembers + j) = Some cell
          /\ Cell.lineMargin cell = JS.or_zero (LineItem.Line_Margin__c li)
          /\ forall margin,
               LineItem.Line_Margin__c li = JS.Num margin ->
               ordinary margin ->
               Cell.amount cell
               = if Cell.selected cell
                 then (margin * (Cell.percentage cell / 100))%float
                 else 0%float)
  /\ (forall event s,
        exec (handleCheckboxChange event) s = s
        \/ settled (exec (handleCheckboxChange event) s))
  /\ (forall event s,
        exec (handlePercentageChange event) s = s
        \/ settled (exec (handlePercentageChange event) s))
  /\ (forall event s,
        exec (handleSelectAllForLineItem event) s = s
        \/ settled (exec (handleSelectAllForLineItem event) s))
  /\ (forall event s,
        exec (handleSelectAllForTeamMember event) s = s
        \/ settled (exec (handleSelectAllForTeamMember event) s))
  /\ (forall opportunityId s, reachable opportunityId s -> settled s).
Proof.
  split; [exact initializeMatrix_settles|].
  split.
  { intros s lineItems teamMembers i j li tm Hl Ht Hi Hj.
    eexists. split; [exact (initializeMatrix_cell _ _ _ _ _ _ _ Hl Ht Hi Hj)|].
    split; [reflexivity|].
    intros margin Hm Hord. cbn [settle Cell.amount Cell.with_amount].
    unfold amount_rule, new_cell. cbn [Cell.lineMargin Cell.selected
                                      Cell.percentage].
    now rewrite Hm, (or_zero_ordinary _ Hord). }
  split; [exact handleCheckboxChange_settles|].
  split; [exact handlePercentageChange_settles|].
  split; [exact handleSelectAllForLineItem_settles|].
  split; [exact handleSelectAllForTeamMember_settles|].
  intros opportunityId s Hreach.
  induction Hreach as [|s i _ IH].
  - apply initial_settled.
  - now apply handle_settled.
Qed.

Lemma amounts_and_totals_settled_witness :
  settled Example.edited
  /\ map Cell.amount (State.matrixData Example.edited)
     = [0%float; 150%float; 30%float; 0%float]
  /\ State.totalCommissions Example.edited = 2
  /\ State.totalAmount Example.edited = 180%float.
Proof.
  split; [|split; [reflexivity | split; reflexivity]].
  apply (proj2 (proj2 (proj2 (proj2 (proj2 (proj2
           amounts_and_totals_settled))))) "006Z").
  unfold Example.edited, Example.loaded.
  repeat apply reachable_step. apply reachable_initial.
Defined.

(** *** Claim C9 *)

(** C9. The totals pass is idempotent: running [calculateTotals] a second
    time changes nothing, neither the grid nor [totalCommissions] nor
    [totalAmount] nor any other field; it dispatches nothing and, being a
    function of the state, gives the same result whenever it is run on the
    same grid. *)
Theorem calculateTotals_idempotent :
  forall s,
    exec calculateTotals (exec calculateTotals s) = exec calculateTotals s
    /\ trace calculateTotals s = []
    /\ forall s',
         State.matrixData s' = State.matrixData s ->
         State.matrixData (exec calculateTotals s')
         = State.matrixData (exec calculateTotals s)
         /\ State.totalCommissions (exec calculateTotals s')
            = State.totalCommissions (exec calculateTotals s)
         /\ State.totalAmount (exec calculateTotals s')
            = State.totalAmount (exec calculateTotals s).
Proof.
  intros s. split; [|split].
  - rewrite (exec_calculateTotals (exec calculateTotals s)).
    rewrite matrixData_calculateTotals.
    rewrite selected_cells_settle, !map_map, length_map.
    rewrite exec_calculateTotals. simpl.
    rewrite (map_ext (fun c => settle (settle c)) settle settle_idempotent).
    rewrite (map_ext (fun c => amount_rule (settle c)) amount_rule
               amount_rule_settle).
    reflexivity.
  - apply trace_calculateTotals.
  - intros s' Hm. rewrite !exec_calculateTotals. simpl. rewrite Hm. auto.
Qed.

(** ** Reconciliation, pair by pair *)

(** The cell of a pair whose record the lookup returns. *)
Lemma new_cell_found existing li tm comm :
  findExistingCommission existing (LineItem.Id li) (TeamMember.userId tm)
  = Some comm ->
  let cell := settle (new_cell existing li tm) in
  Cell.lineItemId cell = LineItem.Id li
  /\ Cell.userId cell = TeamMember.userId tm
  /\ Cell.selected cell = true
  /\ Cell.existingCommissionId cell = existingCommissionId_of (Some comm)
  /\ Cell.percentage cell = percentageValue tm (Some comm).
Proof.
  intros Hfind. unfold new_cell. rewrite Hfind. simpl. auto.
Qed.

(** The cell of a pair without a record. *)
Lemma new_cell_not_found existing li tm :
  findExistingCommission existing (LineItem.Id li) (TeamMember.userId tm)
  = None ->
  let cell := settle (new_cell existing li tm) in
  Cell.lineItemId cell = LineItem.Id li
  /\ Cell.userId cell = TeamMember.userId tm
  /\ Cell.selected cell = false
  /\ Cell.existingCommissionId cell = None
  /\ Cell.percentage cell = JS.or_zero (TeamMember.defaultRate tm).
Proof.
  intros Hfind. unfold new_cell. rewrite Hfind. simpl. auto.
Qed.

Lemma existingCommissionId_of_nonempty comm :
  Commission.Id comm <> "" ->
  existingCommissionId_of (Some comm) = Some (Commission.Id comm).
Proof.
  intros Hid. simpl. destruct (Commission.Id comm); [contradiction|reflexivity].
Qed.

(** *** Claim C2 *)

(** C2. For a line item and a team member whose commission record [comm]
    (the record of the set with their two identifiers) is stored with a
    rate [p], the reconciler's cell for the pair is selected, refers to the
    record by its id, and has the rate as percentage, multiplied by 100 when
    [p <= 1] and unchanged otherwise: a stored 0.15 gives 15 and a stored 15
    gives 15. *)
Theorem reconcile_existing_record :
  forall s lineItems teamMembers i j li tm comm p,
    OpportunityData.lineItems (State.opportunityData s) = Some lineItems ->
    OpportunityData.teamMembers (State.opportunityData s) = Some teamMembers ->
    nth_error lineItems i = Some li ->
    nth_error teamMembers j = Some tm ->
    In comm (State.existingCommissions s) ->
    record_of comm li tm ->
    (forall other,
        In other (State.existingCommissions s) ->
        record_of other li tm -> other = comm) ->
    Commission.Id comm <> "" ->
    Commission.Commission_Percentage__c comm = JS.Num p ->
    exists cell,
      nth_error (State.matrixData (exec initializeMatrix s))
                (i * List.length teamMembers + j) = Some cell
      /\ Cell.lineItemId cell = LineItem.Id li
      /\ Cell.userId cell = TeamMember.userId tm
      /\ Cell.selected cell = true
      /\ Cell.existingCommissionId cell = Some (Commission.Id comm)
      /\ Cell.percentage cell
         = (if (p <=? 1)%float then (p * 100)%float else p)
      /\ (p = 0.15%float -> Cell.percentage cell = 15%float)
      /\ (p = 15%float -> Cell.percentage cell = 15%float).
Proof.
  intros s lineItems teamMembers i j li tm comm p Hl Ht Hi Hj Hin Hrec Huniq
    Hid Hp.
  pose proof (findExistingCommission_unique _ _ _ _ Hin Hrec Huniq) as Hfind.
  destruct (new_cell_found _ _ _ _ Hfind) as (H1 & H2 & H3 & H4 & H5).
  rewrite (existingCommissionId_of_nonempty _ Hid) in H4.
  assert (H6 : percentageValue tm (Some comm)
               = if (p <=? 1)%float then (p * 100)%float else p).
  { unfold percentageValue. now rewrite Hp. }
  rewrite H6 in H5.
  eexists. split; [exact (initializeMatrix_cell _ _ _ _ _ _ _ Hl Ht Hi Hj)|].
  repeat (split; [assumption|]).
  split; intros ->; rewrite H5; reflexivity.
Qed.

Lemma reconcile_existing_record_witness :
  exists cell,
    nth_error (State.matrixData (exec initializeMatrix Example.loaded)) 1
    = Some cell
    /\ Cell.selected cell = true
    /\ Cell.existingCommissionId cell = Some "a0C1"
    /\ Cell.percentage cell = 15%float.
Proof.
  destruct (reconcile_existing_record Example.loaded Example.lineItems
              Example.teamMembers 0 1
              (LineItem.mk "00kA" (Some "Widget") (Some "Widget Pro")
                           (JS.Num 1000))
              (TeamMember.mk "005Y" (Some "Ben") (Some "Sales Manager")
                             (JS.Num 5))
              (Commission.mk "a0C1" "00kA" "005Y" (JS.Num 0.15))
              0.15%float)
    as (cell & Hcell & _ & _ & Hsel & Hid & _ & Hpct & _).
  - reflexivity.
  - reflexivity.
  - reflexivity.
  - reflexivity.
  - simpl. left. reflexivity.
  - split; reflexivity.
  - intros other [<- | [<- | []]] [H1 H2]; [reflexivity | discriminate].
  - discriminate.
  - reflexivity.
  - exists cell. split; [exact Hcell|]. split; [exact Hsel|].
    split; [exact Hid | exact (Hpct eq_refl)].
Defined.

(** *** Claim C10 *)

(** C10. For a line item and a team member whose commission record is
    stored without a rate ([Commission_Percentage__c] undefined), the
    reconciler's cell for the pair is still selected and refers to the record
    by its id, and its percentage is the team member's default rate, or 0
    when the team member has none. *)
Theorem reconcile_record_without_percentage :
  forall s lineItems teamMembers i j li tm comm,
    OpportunityData.lineItems (State.opportunityData s) = Some lineItems ->
    OpportunityData.teamMembers (State.opportunityData s) = Some teamMembers ->
    nth_error lineItems i = Some li ->
    nth_error teamMembers j = Some tm ->
    In comm (State.existingCommissions s) ->
    record_of comm li tm ->
    (forall other,
        In other (State.existingCommissions s) ->
        record_of other li tm -> other = comm) ->
    Commission.Id comm <> "" ->
    Commission.Commission_Percentage__c comm = JS.Undefined ->
    exists cell,
      nth_error (State.matrixData (exec initializeMatrix s))
                (i * List.length teamMembers + j) = Some cell
      /\ Cell.lineItemId cell = LineItem.Id li
      /\ Cell.userId cell = TeamMember.userId tm
      /\ Cell.selected cell = true
      /\ Cell.existingCommissionId cell = Some (Commission.Id comm)
      /\ (forall d,
            TeamMember.defaultRate tm = JS.Num d -> ordinary d ->
            Cell.percentage cell = d)
      /\ (TeamMember.defaultRate tm = JS.Undefined
          \/ TeamMember.defaultRate tm = JS.Null ->
          Cell.percentage cell = 0%float)
      /\ Cell.percentage cell = JS.or_zero (TeamMember.defaultRate tm).
Proof.
  intros s lineItems teamMembers i j li tm comm Hl Ht Hi Hj Hin Hrec Huniq
    Hid Hp.
  pose proof (findExistingCommission_unique _ _ _ _ Hin Hrec Huniq) as Hfind.
  destruct (new_cell_found _ _ _ _ Hfind) as (H1 & H2 & H3 & H4 & H5).
  rewrite (existingCommissionId_of_nonempty _ Hid) in H4.
  assert (H6 : percentageValue tm (Some comm)
               = JS.or_zero (TeamMember.defaultRate tm)).
  { unfold percentageValue. now rewrite Hp. }
  rewrite H6 in H5.
  eexists. split; [exact (initializeMatrix_cell _ _ _ _ _ _ _ Hl Ht Hi Hj)|].
  repeat (split; [assumption|]).
  split; [|split; [|exact H5]].
  - intros d Hd Hord. rewrite H5, Hd. now apply or_zero_ordinary.
  - intros [Hd | Hd]; rewrite H5, Hd; reflexivity.
Qed.

Lemma reconcile_record_without_percentage_witness :
  exists cell,
    nth_error (State.matrixData (exec initializeMatrix Example.loaded)) 2
    = Some cell
    /\ Cell.selected cell = true
    /\ Cell.existingCommissionId cell = Some "a0C2"
    /\ Cell.percentage cell = 10%float.
Proof.
  destruct (reconcile_record_without_percentage Example.loaded
              Example.lineItems Example.teamMembers 1 0
              (LineItem.mk "00kB" (Some "Gadget") None (JS.Num 250))
              (TeamMember.mk "005X" (Some "Ana") (Some "Sales Rep")
                             (JS.Num 10))
              (Commission.mk "a0C2" "00kB" "005X" JS.Undefined))
    as (cell & Hcell & _ & _ & Hsel & Hid & Hpct & _).
  - reflexivity.
  - reflexivity.
  - reflexivity.
  - reflexivity.
  - simpl. right. left. reflexivity.
  - split; reflexivity.
  - intros other [<- | [<- | []]] [H1 H2]; [discriminate | reflexivity].
  - discriminate.
  - reflexivity.
  - exists cell. split; [exact Hcell|]. split; [exact Hsel|].
    split; [exact Hid|]. apply (Hpct 10%float eq_refl).
    split; [reflexivity | discriminate].
Defined.

Lemma Forall2_map_self {A B : Type} (R : B -> A -> Prop) (f : A -> B)
  (l : list A) :
  (forall x, In x l -> R (f x) x) -> Forall2 R (map f l) l.
Proof.
  induction l as [|x l IH]; intros H; simpl; constructor.
  - apply H. now left.
  - apply IH. intros y Hy. apply H. now right.
Qed.

(** *** Claim C5 *)

(** C5. Reconciling line items and team members with no stored record gives
    one cell per pair of the cross product, in row order; every cell is
    unselected, refers to no record, and has its team member's default rate
    as percentage (0 when the team member has none). *)
Theorem reconcile_without_records :
  forall s lineItems teamMembers,
    OpportunityData.lineItems (State.opportunityData s) = Some lineItems ->
    OpportunityData.teamMembers (State.opportunityData s) = Some teamMembers ->
    State.existingCommissions s = [] ->
    Forall2
      (fun cell pair =>
         Cell.lineItemId cell = LineItem.Id (fst pair)
         /\ Cell.userId cell = TeamMember.userId (snd pair)
         /\ Cell.selected cell = false
         /\ Cell.existingCommissionId cell = None
         /\ (forall d,
               TeamMember.defaultRate (snd pair) = JS.Num d -> ordinary d ->
               Cell.percentage cell = d)
         /\ Cell.percentage cell
            = JS.or_zero (TeamMember.defaultRate (snd pair)))
      (State.matrixData (exec initializeMatrix s))
      (list_prod lineItems teamMembers).
Proof.
  intros s lineItems teamMembers Hl Ht Hnone.
  rewrite matrixData_initializeMatrix, (build_matrix_loaded _ _ _ _ Hl Ht).
  rewrite Hnone, map_map.
  apply Forall2_map_self. intros [li tm] _.
  destruct (new_cell_not_found [] li tm eq_refl) as (H1 & H2 & H3 & H4 & H5).
  simpl fst; simpl snd.
  repeat (split; [assumption|]).
  split; [|exact H5].
  intros d Hd Hord. rewrite H5, Hd. now apply or_zero_ordinary.
Qed.

Lemma reconcile_without_records_witness :
  map (fun cell =>
         (Cell.lineItemId cell, Cell.userId cell, Cell.selected cell,
          Cell.existingCommissionId cell, Cell.percentage cell))
      (State.matrixData (exec initializeMatrix Example.fresh))
  = [ ("00kA", "005X", false, None, 10%float);
      ("00kA", "005Y", false, None, 5%float);
      ("00kB", "005X", false, None, 10%float);
      ("00kB", "005Y", false, None, 5%float) ]
  /\ Forall2
       (fun cell pair =>
          Cell.selected cell = false
          /\ Cell.existingCommissionId cell = None
          /\ Cell.percentage cell
             = JS.or_zero (TeamMember.defaultRate (snd pair)))
       (State.matrixData (exec initializeMatrix Example.fresh))
       (list_prod Example.lineItems Example.teamMembers).
Proof.
  split; [reflexivity|].
  refine (Forall2_impl _ _
            (reconcile_without_records Example.fresh Example.lineItems
               Example.teamMembers eq_refl eq_refl eq_refl)).
  intros cell pair (_ & _ & Hsel & Hid & _ & Hpct). auto.
Defined.

(** ** The matrix handlers, cell by cell *)

Lemma same_fixed_fields_refl (c : Cell.t) : same_fixed_fields c c.
Proof. repeat split. Qed.

Lemma Forall2_map_right {A B : Type} (R : A -> B -> Prop) (f : A -> B)
  (l : list A) :
  (forall x, In x l -> R x (f x)) -> Forall2 R l (map f l).
Proof.
  induction l as [|x l IH]; intros H; simpl; constructor.
  - apply H. now left.
  - apply IH. intros y Hy. apply H. now right.
Qed.

(** Past the guards, each handler is an instance of [mutate]. *)
Lemma handleCheckboxChange_applies event lineItemId userId :
  Target.lineItemId event = Some lineItemId ->
  Target.userId event = Some userId ->
  lineItemId <> "" -> userId <> "" ->
  handleCheckboxChange event
  = mutate (checkbox_update (cell_id lineItemId userId)
                            (Target.checked event)).
Proof.
  intros Hl Hu Hln Hun. unfold handleCheckboxChange. rewrite Hl, Hu.
  destruct lineItemId; [contradiction|]. destruct userId; [contradiction|].
  reflexivity.
Qed.

Lemma handleSelectAllForLineItem_applies event lineItemId :
  Target.lineItemId event = Some lineItemId ->
  lineItemId <> "" ->
  handleSelectAllForLineItem event
  = mutate (lineItem_update (Some lineItemId) (Target.checked event)).
Proof.
  intros Hl Hln. unfold handleSelectAllForLineItem. rewrite Hl.
  destruct lineItemId; [contradiction | reflexivity].
Qed.

Lemma handleSelectAllForTeamMember_applies event userId :
  Target.dataset_userId event = Some userId ->
  userId <> "" ->
  handleSelectAllForTeamMember event
  = mutate (teamMember_update (Some userId) (Target.checked event)).
Proof.
  intros Hu Hun. unfold handleSelectAllForTeamMember. rewrite Hu.
  destruct userId; [contradiction | reflexivity].
Qed.

(** *** Claim C3 *)

(** C3. [handleSelectAllForTeamMember] for a user id and a checkbox state
    keeps the grid's cells in place; on every cell of that user it sets
    [selected] to the checkbox state and, when checking, overwrites the
    percentage with the cell's default percentage whatever it was before
    (when unchecking, the percentage stays); a cell of another user keeps its
    selection and percentage and, its amount being settled, is unchanged.
    Amounts follow the rule afterwards. *)
Theorem selectAllForTeamMember_cells :
  forall s event userId,
    Target.dataset_userId event = Some userId ->
    userId <> "" ->
    Forall2
      (fun c c' =>
         same_fixed_fields c c'
         /\ Cell.amount c' = amount_rule c'
         /\ (Cell.userId c = userId ->
             Cell.selected c' = Target.checked event
             /\ (Target.checked event = true ->
                 Cell.percentage c' = Cell.defaultPercentage c)
             /\ (Target.checked event = false ->
                 Cell.percentage c' = Cell.percentage c))
         /\ (Cell.userId c <> userId ->
             Cell.selected c' = Cell.selected c
             /\ Cell.percentage c' = Cell.percentage c
             /\ (Cell.amount c = amount_rule c -> c' = c)))
      (State.matrixData s)
      (State.matrixData (exec (handleSelectAllForTeamMember event) s)).
Proof.
  intros s event userId Hu Hne.
  rewrite (handleSelectAllForTeamMember_applies _ _ Hu Hne).
  rewrite matrixData_mutate. apply Forall2_map_right. intros c _.
  unfold teamMember_update, strict_eq, same_fixed_fields.
  destruct (String.eqb_spec (Cell.userId c) userId) as [Heq | Hneq].
  - destruct (Target.checked event); simpl;
      (split; [repeat split|]); (split; [reflexivity|]);
      (split; [|intros Hno; contradiction]);
      intros _; (split; [reflexivity|]); split; intros Hc;
      solve [reflexivity | discriminate Hc].
  - split; [repeat split|]. split; [reflexivity|].
    split; [intros Hyes; contradiction|].
    intros _. split; [reflexivity|]. split; [reflexivity|].
    apply settle_fixed.
Qed.

Lemma selectAllForTeamMember_cells_witness :
  Forall2
    (fun c c' =>
       Cell.userId c = "005Y" ->
       Cell.selected c' = true
       /\ Cell.percentage c' = Cell.defaultPercentage c)
    (State.matrixData Example.loaded)
    (State.matrixData
       (exec (handleSelectAllForTeamMember (Example.click "00kA" "005Y" true))
             Example.loaded)).
Proof.
  refine (Forall2_impl _ _
            (selectAllForTeamMember_cells Example.loaded
               (Example.click "00kA" "005Y" true) "005Y" eq_refl _)).
  - intros c c' (_ & _ & Hsame & _) Hu.
    destruct (Hsame Hu) as (Hsel & Hpct & _).
    split; [exact Hsel | exact (Hpct eq_refl)].
  - discriminate.
Defined.

(** *** Claim C4 *)

(** C4. [handleSelectAllForLineItem] for a line item id and a checkbox state
    keeps the grid's cells in place; on every cell of that line item it sets
    [selected] to the checkbox state and, when checking, gives the cell its
    default percentage only if its percentage is 0 ([percentage === 0]); any
    other percentage, 12 for one, stays; a cell of another line item keeps
    its selection and percentage and, its amount being settled, is
    unchanged. Amounts follow the rule afterwards. *)
Theorem selectAllForLineItem_cells :
  forall s event lineItemId,
    Target.lineItemId event = Some lineItemId ->
    lineItemId <> "" ->
    Forall2
      (fun c c' =>
         same_fixed_fields c c'
         /\ Cell.amount c' = amount_rule c'
         /\ (Cell.lineItemId c = lineItemId ->
             Cell.selected c' = Target.checked event
             /\ (Target.checked event = true ->
                 (Cell.percentage c =? 0)%float = true ->
                 Cell.percentage c' = Cell.defaultPercentage c)
             /\ (Target.checked event = true ->
                 Cell.percentage c = 0%float ->
                 Cell.percentage c' = Cell.defaultPercentage c)
             /\ ((Cell.percentage c =? 0)%float = false ->
                 Cell.percentage c' = Cell.percentage c)
             /\ (Cell.percentage c = 12%float ->
                 Cell.percentage c' = 12%float)
             /\ (Target.checked event = false ->
                 Cell.percentage c' = Cell.percentage c))
         /\ (Cell.lineItemId c <> lineItemId ->
             Cell.selected c' = Cell.selected c
             /\ Cell.percentage c' = Cell.percentage c
             /\ (Cell.amount c = amount_rule c -> c' = c)))
      (State.matrixData s)
      (State.matrixData (exec (handleSelectAllForLineItem event) s)).
Proof.
  intros s event lineItemId Hl Hne.
  rewrite (handleSelectAllForLineItem_applies _ _ Hl Hne).
  rewrite matrixData_mutate. apply Forall2_map_right. intros c _.
  unfold lineItem_update, strict_eq, same_fixed_fields.
  destruct (String.eqb_spec (Cell.lineItemId c) lineItemId) as [Heq | Hneq].
  - split; [|split; [|split; [|intros Hno; contradiction]]].
    + destruct (Target.checked event && (Cell.percentage c =? 0)%float);
        repeat split.
    + destruct (Target.checked event && (Cell.percentage c =? 0)%float);
        reflexivity.
    + intros _.
      destruct (Target.checked event) eqn:Hchk;
        destruct (Cell.percentage c =? 0)%float eqn:Hzero; simpl;
        (split; [reflexivity|]);
        (split; [intros H1 H2; first [reflexivity | discriminate]|]);
        (split; [intros H1 Hp;
                 first [reflexivity | discriminate H1 | float_absurd Hp Hzero]|]);
        (split; [intros H1; first [reflexivity | discriminate H1]|]);
        (split; [intros Hp; first [exact Hp | float_absurd Hp Hzero]|]);
        intros H1; first [reflexivity | discriminate H1].
  - split; [repeat split|]. split; [reflexivity|].
    split; [intros Hyes; contradiction|].
    intros _. split; [reflexivity|]. split; [reflexivity|].
    apply settle_fixed.
Qed.

Lemma selectAllForLineItem_cells_witness :
  map (fun c => (Cell.lineItemId c, Cell.userId c, Cell.percentage c))
      (State.matrixData Example.edited)
  = [ ("00kA", "005X", 10%float); ("00kA", "005Y", 15%float);
      ("00kB", "005X", 12%float); ("00kB", "005Y", 0%float) ]
  /\ Forall2
       (fun c c' =>
          Cell.lineItemId c = "00kB" ->
          Cell.selected c' = true
          /\ (Cell.percentage c = 0%float ->
              Cell.percentage c' = Cell.defaultPercentage c)
          /\ (Cell.percentage c = 12%float -> Cell.percentage c' = 12%float))
       (State.matrixData Example.edited)
       (State.matrixData
          (exec (handleSelectAllForLineItem (Example.click "00kB" "005X" true))
                Example.edited)).
Proof.
  split; [reflexivity|].
  refine (Forall2_impl _ _
            (selectAllForLineItem_cells Example.edited
               (Example.click "00kB" "005X" true) "00kB" eq_refl _)).
  - intros c c' (_ & _ & Hsame & _) Hl.
    destruct (Hsame Hl) as (Hsel & _ & Hzero & _ & Htwelve & _).
    split; [exact Hsel|]. split; [exact (Hzero eq_refl) | exact Htwelve].
  - discriminate.
Defined.

(** ** Properties of cells that hold throughout a session *)

Section CellInvariant.

Variable P : Cell.t -> Prop.
Hypothesis P_new : forall existing li tm, P (new_cell existing li tm).
Hypothesis P_selected : forall b c, P c -> P (Cell.with_selected b c).
Hypothesis P_percentage : forall p c, P c -> P (Cell.with_percentage p c).
Hypothesis P_amount : forall a c, P c -> P (Cell.with_amount a c).

Lemma build_matrix_all data existing : Forall P (build_matrix data existing).
Proof.
  apply Forall_forall. intros c Hin. unfold build_matrix, forEach_push in Hin.
  destruct (OpportunityData.lineItems data) as [lis|]; [|destruct Hin].
  apply in_flat_map in Hin. destruct Hin as (li & _ & Hin).
  destruct (OpportunityData.teamMembers data) as [tms|]; [|destruct Hin].
  apply in_flat_map in Hin. destruct Hin as (tm & _ & [<- | []]).
  apply P_new.
Qed.

Lemma map_settle_all (f : Cell.t -> Cell.t) (cells : list Cell.t) :
  (forall c, P c -> P (f c)) ->
  Forall P cells -> Forall P (map (fun c => settle (f c)) cells).
Proof.
  intros Hf Hall. induction Hall as [|c rest Hc _ IH]; simpl; constructor.
  - apply P_amount, Hf, Hc.
  - exact IH.
Qed.

Lemma initializeMatrix_all s :
  Forall P (State.matrixData (exec initializeMatrix s)).
Proof.
  rewrite matrixData_initializeMatrix.
  apply (map_settle_all (fun c => c)); [auto | apply build_matrix_all].
Qed.

Lemma mutate_all f s :
  (forall c, P c -> P (f c)) ->
  Forall P (State.matrixData s) ->
  Forall P (State.matrixData (exec (mutate f) s)).
Proof.
  intros Hf Hall. rewrite matrixData_mutate. now apply map_settle_all.
Qed.

Lemma handle_all i s :
  Forall P (State.matrixData s) ->
  Forall P (State.matrixData (exec (handle i) s)).
Proof.
  intros Hall. destruct i as [r| | |r|e|e|e|e|r]; simpl.
  - unfold loadData. destruct r as [[oppData existingComm]|err]; run.
    + match goal with
      | |- context [exec initializeMatrix ?t] =>
          pose proof (initializeMatrix_all t) as Hi;
          destruct (State.hasExistingCommissions (exec initializeMatrix t))
      end; run; exact Hi.
    + exact Hall.
  - apply initializeMatrix_all.
  - unfold handleCancel, closeFlowAndRefresh. run. exact Hall.
  - unfold handleDeleteAndRecreate. destruct r as [u|err]; run.
    + match goal with
      | |- context [exec initializeMatrix ?t] =>
          exact (initializeMatrix_all t)
      end.
    + exact Hall.
  - destruct (handleCheckboxChange_cases e)
      as [-> | (l & u & _ & _ & _ & _ & ->)]; [exact Hall|].
    apply mutate_all; [|exact Hall].
    intros c Hc. unfold checkbox_update. destruct (String.eqb _ _); auto.
  - destruct (handlePercentageChange_cases e)
      as [-> | (l & u & _ & _ & _ & _ & ->)]; [exact Hall|].
    apply mutate_all; [|exact Hall].
    intros c Hc. unfold percentage_update. destruct (String.eqb _ _); auto.
  - destruct (handleSelectAllForLineItem_cases e) as [-> | (l & _ & _ & ->)];
      [exact Hall|].
    apply mutate_all; [|exact Hall].
    intros c Hc. unfold lineItem_update.
    destruct (strict_eq _ _); [|exact Hc].
    destruct (_ && _); auto.
  - destruct (handleSelectAllForTeamMember_cases e) as [-> | (u & _ & _ & ->)];
      [exact Hall|].
    apply mutate_all; [|exact Hall].
    intros c Hc. unfold teamMember_update.
    destruct (strict_eq _ _); [|exact Hc].
    destruct (Target.checked e); auto.
  - now rewrite (proj1 (handleGenerateCommissions_grid r s)).
Qed.

Lemma reachable_all opportunityId s :
  reachable opportunityId s -> Forall P (State.matrixData s).
Proof.
  induction 1 as [|s i _ IH]; [constructor | now apply handle_all].
Qed.

End CellInvariant.

(** Every cell of a session carries the identifier of its pair. *)
Lemma reachable_keyed opportunityId s :
  reachable opportunityId s -> Forall keyed (State.matrixData s).
Proof.
  apply reachable_all; intros; try assumption. reflexivity.
Qed.

(** ** Cell identifiers *)

(** With dash-free line item ids, the identifier determines the pair. *)
Lemma cell_id_inj (l1 l2 u1 u2 : string) :
  dash_free l1 = true -> dash_free l2 = true ->
  cell_id l1 u1 = cell_id l2 u2 -> l1 = l2 /\ u1 = u2.
Proof.
  unfold cell_id. revert l2.
  induction l1 as [|a l1 IH]; intros [|b l2] H1 H2 Heq; simpl in *.
  - injection Heq as ->. auto.
  - injection Heq as <- _. discriminate H2.
  - injection Heq as -> _. discriminate H1.
  - injection Heq as -> Heq.
    apply andb_true_iff in H1, H2.
    destruct (IH l2 (proj2 H1) (proj2 H2) Heq) as [-> ->]. auto.
Qed.

Lemma cell_id_eqb (c : Cell.t) (lineItemId userId : string) :
  keyed c -> dash_free (Cell.lineItemId c) = true ->
  dash_free lineItemId = true ->
  String.eqb (Cell.id c) (cell_id lineItemId userId) = true
  <-> Cell.lineItemId c = lineItemId /\ Cell.userId c = userId.
Proof.
  intros Hk Hc Hl. rewrite String.eqb_eq, Hk. split.
  - now apply cell_id_inj.
  - now intros [-> ->].
Qed.

(** *** Claim C8 *)

(** C8. [handleCheckboxChange] for the key of a pair and a checkbox state
    keeps the grid's length and order; the cell with that key gets [selected]
    set to the checkbox state and keeps every other field, its amount being
    recomputed by the rule; every other cell keeps its selection and, its
    amount being settled, is unchanged. Cells carry the identifier
    [lineItemId-userId] of their pair and line item ids contain no dash, as
    Salesforce ids do. *)
Theorem toggleCell_frame :
  forall s event lineItemId userId,
    Target.lineItemId event = Some lineItemId ->
    Target.userId event = Some userId ->
    lineItemId <> "" -> userId <> "" ->
    dash_free lineItemId = true ->
    Forall (fun c => keyed c /\ dash_free (Cell.lineItemId c) = true)
           (State.matrixData s) ->
    let s' := exec (handleCheckboxChange event) s in
    List.length (State.matrixData s') = List.length (State.matrixData s)
    /\ Forall2
         (fun c c' =>
            same_fixed_fields c c'
            /\ Cell.percentage c' = Cell.percentage c
            /\ Cell.amount c' = amount_rule c'
            /\ (Cell.lineItemId c = lineItemId /\ Cell.userId c = userId ->
                Cell.selected c' = Target.checked event
                /\ c' = settle (Cell.with_selected (Target.checked event) c))
            /\ (~ (Cell.lineItemId c = lineItemId /\ Cell.userId c = userId) ->
                Cell.selected c' = Cell.selected c
                /\ (Cell.amount c = amount_rule c -> c' = c)))
         (State.matrixData s) (State.matrixData s').
Proof.
  intros s event lineItemId userId Hl Hu Hln Hun Hdash Hgrid s'. subst s'.
  rewrite (handleCheckboxChange_applies _ _ _ Hl Hu Hln Hun).
  rewrite matrixData_mutate. split; [apply length_map|].
  apply Forall2_map_right. intros c Hin.
  rewrite Forall_forall in Hgrid. destruct (Hgrid c Hin) as [Hk Hc].
  pose proof (cell_id_eqb c lineItemId userId Hk Hc Hdash) as Hkey.
  unfold checkbox_update, same_fixed_fields.
  destruct (String.eqb (Cell.id c) (cell_id lineItemId userId)).
  - split; [repeat split|]. split; [reflexivity|]. split; [reflexivity|].
    split; [intros _; split; reflexivity|].
    intros Hno. destruct Hno. now apply Hkey.
  - split; [repeat split|]. split; [reflexivity|]. split; [reflexivity|].
    split; [intros Hyes; apply Hkey in Hyes; discriminate Hyes|].
    intros _. split; [reflexivity | apply settle_fixed].
Qed.

Lemma toggleCell_frame_witness :
  map (fun c => (Cell.lineItemId c, Cell.userId c, Cell.selected c))
      (State.matrixData
         (exec (handleCheckboxChange (Example.click "00kA" "005X" true))
               Example.loaded))
  = [ ("00kA", "005X", true); ("00kA", "005Y", true);
      ("00kB", "005X", true); ("00kB", "005Y", false) ]
  /\ Forall2
       (fun c c' =>
          (Cell.lineItemId c = "00kA" /\ Cell.userId c = "005X" ->
           Cell.selected c' = true)
          /\ (~ (Cell.lineItemId c = "00kA" /\ Cell.userId c = "005X") ->
              Cell.amount c = amount_rule c -> c' = c))
       (State.matrixData Example.loaded)
       (State.matrixData
          (exec (handleCheckboxChange (Example.click "00kA" "005X" true))
                Example.loaded)).
Proof.
  split; [reflexivity|].
  refine (Forall2_impl _ _
            (proj2 (toggleCell_frame Example.loaded
                      (Example.click "00kA" "005X" true) "00kA" "005X"
                      eq_refl eq_refl _ _ eq_refl _))).
  - intros c c' (_ & _ & _ & Hyes & Hno). split.
    + intros Hkey. exact (proj1 (Hyes Hkey)).
    + intros Hkey. exact (proj2 (Hno Hkey)).
  - discriminate.
  - discriminate.
  - repeat constructor.
Defined.

Lemma Forall2_nth_error {A B : Type} (R : A -> B -> Prop) (l : list A)
  (l' : list B) (i : nat) (a : A) (b : B) :
  Forall2 R l l' ->
  nth_error l i = Some a -> nth_error l' i = Some b -> R a b.
Proof.
  intros H. revert i. induction H as [|x y l l' Hxy _ IH]; intros i Ha Hb.
  - destruct i; discriminate Ha.
  - destruct i as [|i]; simpl in Ha, Hb.
    + injection Ha as <-. injection Hb as <-. exact Hxy.
    + exact (IH i Ha Hb).
Qed.

(** C8, as worded, fails on the code. The totals pass that ends
    [handleCheckboxChange] rewrites the amount of the toggled cell: ticking
    the unselected cell of line item 00kA and user 005X in the loaded
    example takes its amount from 0 to 100, so [selected] is not the only
    field that changes. And the handler finds the cell by the identifier
    [lineItemId-userId]: with dashes in the ids, ticking the pair (a-b, c)
    also ticks the cell of the pair (a, b-c), whose identifier is a-b-c as
    well. *)
Lemma toggleCell_frame_counterexample :
  (map Cell.amount (State.matrixData Example.loaded)
   = [0%float; 150%float; 25%float; 0%float]
   /\ map Cell.amount
        (State.matrixData
           (exec (handleCheckboxChange (Example.click "00kA" "005X" true))
                 Example.loaded))
      = [100%float; 150%float; 25%float; 0%float]
   /\ ~ toggle_only_selects "00kA" "005X" true
         (State.matrixData Example.loaded)
         (State.matrixData
            (exec (handleCheckboxChange (Example.click "00kA" "005X" true))
                  Example.loaded)))
  /\ (map (fun c => (Cell.lineItemId c, Cell.userId c, Cell.selected c))
          (State.matrixData Example.dashed)
      = [ ("a-b", "c", false); ("a-b", "b-c", false);
          ("a", "c", false); ("a", "b-c", false) ]
      /\ map (fun c => (Cell.lineItemId c, Cell.userId c, Cell.selected c))
             (State.matrixData
                (exec (handleCheckboxChange (Example.click "a-b" "c" true))
                      Example.dashed))
         = [ ("a-b", "c", true); ("a-b", "b-c", false);
             ("a", "c", false); ("a", "b-c", true) ]
      /\ ~ toggle_only_selects "a-b" "c" true
            (State.matrixData Example.dashed)
            (State.matrixData
               (exec (handleCheckboxChange (Example.click "a-b" "c" true))
                     Example.dashed))).
Proof.
  split; (split; [reflexivity|]); (split; [reflexivity|]); intros H.
  - assert (H0 : nth_error (State.matrixData Example.loaded) 0
                 = Some (Cell.mk "00kA-005X" "00kA" "005X" (Some "Widget Pro")
                           (Some "Ana") (Some "Sales Rep") 1000 false 10 10 0
                           None)) by reflexivity.
    assert (H1 : nth_error
                   (State.matrixData
                      (exec (handleCheckboxChange
                               (Example.click "00kA" "005X" true))
                            Example.loaded)) 0
                 = Some (Cell.mk "00kA-005X" "00kA" "005X" (Some "Widget Pro")
                           (Some "Ana") (Some "Sales Rep") 1000 true 10 10 100
                           None)) by reflexivity.
    destruct (Forall2_nth_error _ _ _ _ _ _ H H0 H1) as [Hyes _].
    specialize (Hyes (conj eq_refl eq_refl)).
    apply (f_equal (fun c => PrimFloat.eqb (Cell.amount c) 0)) in Hyes.
    vm_compute in Hyes. discriminate Hyes.
  - assert (H0 : nth_error (State.matrixData Example.dashed) 3
                 = Some (Cell.mk "a-b-c" "a" "b-c" None None None 0 false 10
                           10 0 None)) by reflexivity.
    assert (H1 : nth_error
                   (State.matrixData
                      (exec (handleCheckboxChange
                               (Example.click "a-b" "c" true))
                            Example.dashed)) 3
                 = Some (Cell.mk "a-b-c" "a" "b-c" None None None 0 true 10
                           10 0 None)) by reflexivity.
    destruct (Forall2_nth_error _ _ _ _ _ _ H H0 H1) as [_ Hno].
    assert (Hother : ~ ("a" = "a-b" /\ "b-c" = "c"))
      by (intros [Hl _]; discriminate Hl).
    specialize (Hno Hother).
    apply (f_equal Cell.selected) in Hno. discriminate Hno.
Qed.

(** ** Submission *)

Lemma trace_handleGenerateCommissions_none r s :
  selected_cells (State.matrixData s) = [] ->
  trace (handleGenerateCommissions r) s = validation_failure.
Proof.
  intros Hnone. unfold handleGenerateCommissions. run.
  cbn [State.matrixData State.set_isProcessing].
  unfold selected_cells in Hnone. rewrite Hnone. reflexivity.
Qed.

Lemma trace_handleGenerateCommissions_some r s :
  selected_cells (State.matrixData s) <> [] ->
  exists rest,
    trace (handleGenerateCommissions r) s
    = CreateUpdateCommissions (State.opportunityId s)
        (map apex_cell (selected_cells (State.matrixData s))) :: rest
    /\ backend_calls rest = [].
Proof.
  intros Hsome. unfold handleGenerateCommissions. run.
  cbn [State.matrixData State.set_isProcessing State.opportunityId].
  unfold selected_cells in *.
  destruct (filter Cell.selected (State.matrixData s)) as [|c cs];
    [contradiction|].
  cbn [List.length Nat.eqb].
  destruct r as [result|err]; [destruct (success result)|]; run;
    eexists; (split; [reflexivity|]); reflexivity.
Qed.

(** *** Claim C6 *)

(** C6. A submission stops with the validation toast, calling no Apex
    method, exactly when no cell of the grid is selected. Otherwise it calls
    [createUpdateCommissions] once, before anything else, with one entry per
    selected cell, in grid order, carrying the cell's [lineItemId], [userId],
    [selected], [percentage] (as stored, on the 0-100 scale) and [amount]. *)
Theorem submission_projects_selected :
  forall settled s,
    let selectedCells := selected_cells (State.matrixData s) in
    let effects := trace (handleGenerateCommissions settled) s in
    (effects = validation_failure <-> selectedCells = [])
    /\ (backend_calls effects = [] <-> selectedCells = [])
    /\ (selectedCells <> [] ->
        exists cellsForApex rest,
          effects
          = CreateUpdateCommissions (State.opportunityId s) cellsForApex :: rest
          /\ backend_calls rest = []
          /\ Forall2 projected selectedCells cellsForApex).
Proof.
  intros r s selectedCells effects. subst selectedCells effects.
  destruct (selected_cells (State.matrixData s)) as [|c cs] eqn:Hsel.
  - rewrite (trace_handleGenerateCommissions_none r s Hsel).
    split; [split; reflexivity|]. split; [split; reflexivity|].
    intros Hno. now destruct Hno.
  - assert (Hsome : selected_cells (State.matrixData s) <> [])
      by (rewrite Hsel; discriminate).
    destruct (trace_handleGenerateCommissions_some r s Hsome)
      as (rest & -> & Hrest).
    split; [split; discriminate|]. split; [split; discriminate|].
    intros _. eexists _, rest. split; [reflexivity|]. split; [exact Hrest|].
    rewrite Hsel. apply Forall2_map_right. intros x _. repeat split.
Qed.

Lemma submission_projects_selected_witness :
  trace (handleGenerateCommissions
           (Resolved {| success := true; recordsCreated := 1;
                        recordsUpdated := 1; errorMessage := None;
                        partialErrors := None |}))
        Example.loaded
  = [ CreateUpdateCommissions "006Z"
        [ ApexCell.mk "00kA" "005Y" true 15 150;
          ApexCell.mk "00kB" "005X" true 10 25 ];
      ShowToast "Success"
        "Successfully processed 2 commission records (1 created, 1 updated)"
        "success";
      SetTimeoutCloseFlow 1500 ]
  /\ (trace (handleGenerateCommissions (Rejected {| body_message := None;
                                                   message := None |}))
            Example.fresh
      = validation_failure
      <-> selected_cells (State.matrixData Example.fresh) = []).
Proof.
  split; [reflexivity|].
  exact (proj1 (submission_projects_selected
                  (Rejected {| body_message := None; message := None |})
                  Example.fresh)).
Defined.

(** ** Delete and recreate *)

Lemma build_matrix_without_records (data : OpportunityData.t) :
  Forall (fun c => Cell.existingCommissionId c = None
                   /\ Cell.selected c = false)
         (build_matrix data []).
Proof.
  apply Forall_forall. intros c Hin. unfold build_matrix, forEach_push in Hin.
  destruct (OpportunityData.lineItems data) as [lis|]; [|destruct Hin].
  apply in_flat_map in Hin. destruct Hin as (li & _ & Hin).
  destruct (OpportunityData.teamMembers data) as [tms|]; [|destruct Hin].
  apply in_flat_map in Hin. destruct Hin as (tm & _ & [<- | []]).
  split; reflexivity.
Qed.

(** *** Claim C7 *)

(** C7. When [deleteExistingCommissions] resolves, the stored records are
    dropped and the reconciler runs again without records: afterwards no cell
    refers to a record and no cell is selected. When it rejects, nothing but
    the processing flag is written, so the grid, its totals and the stored
    records stay as they were, and the only thing shown is the error
    toast. *)
Theorem delete_and_recreate :
  forall s,
    (forall u,
        let s' := exec (handleDeleteAndRecreate (Resolved u)) s in
        State.existingCommissions s' = []
        /\ State.hasExistingCommissions s' = false
        /\ State.matrixData s'
           = State.matrixData
               (exec initializeMatrix (State.set_existingCommissions [] s))
        /\ Forall (fun c => Cell.existingCommissionId c = None
                            /\ Cell.selected c = false)
                  (State.matrixData s'))
    /\ (forall error,
          exec (handleDeleteAndRecreate (Rejected error)) s
          = State.set_isProcessing false s
          /\ trace (handleDeleteAndRecreate (Rejected error)) s
             = [ DeleteExistingCommissions (State.opportunityId s);
                 ShowToast "Error"
                   ("Error deleting existing commissions: "
                    ++ JS.show (body_message error))
                   "error" ]).
Proof.
  intros s. split.
  - intros u s'. subst s'. unfold handleDeleteAndRecreate. run.
    cbn [State.existingCommissions State.hasExistingCommissions
         State.matrixData State.set_isProcessing].
    rewrite !matrixData_initializeMatrix.
    unfold initializeMatrix. run. rewrite !exec_calculateTotals.
    cbn. split; [reflexivity|]. split; [reflexivity|].
    split; [reflexivity|].
    apply Forall_forall. intros c' Hin. apply in_map_iff in Hin.
    destruct Hin as (c & <- & Hin).
    pose proof (build_matrix_without_records (State.opportunityData s)) as H.
    rewrite Forall_forall in H. exact (H c Hin).
  - intros error. unfold handleDeleteAndRecreate. run. split; reflexivity.
Qed.

Lemma delete_and_recreate_witness :
  map (fun c => (Cell.selected c, Cell.existingCommissionId c))
      (State.matrixData Example.loaded)
  = [ (false, None); (true, Some "a0C1"); (true, Some "a0C2"); (false, None) ]
  /\ Forall (fun c => Cell.existingCommissionId c = None
                      /\ Cell.selected c = false)
            (State.matrixData
               (exec (handleDeleteAndRecreate (Resolved tt)) Example.loaded))
  /\ State.matrixData
       (exec (handleDeleteAndRecreate
                (Rejected {| body_message := Some "DELETE_FAILED";
                             message := None |}))
             Example.loaded)
     = State.matrixData Example.loaded.
Proof.
  split; [reflexivity|]. split.
  - exact (proj2 (proj2 (proj2
             (proj1 (delete_and_recreate Example.loaded) tt)))).
  - now rewrite (proj1 (proj2 (delete_and_recreate Example.loaded)
                          {| body_message := Some "DELETE_FAILED";
                             message := None |})).
Defined.

(** ** The component around the grid *)

(** The state a matrix handler leaves past its guard. *)
Lemma exec_mutate (f : Cell.t -> Cell.t) (s : State.t) :
  exec (mutate f) s
  = State.set_refreshKey (State.refreshKey s + 1)
      (State.set_totalAmount
         (sum_amounts
            (map amount_rule (selected_cells (map f (State.matrixData s)))))
         (State.set_totalCommissions
            (List.length (selected_cells (map f (State.matrixData s))))
            (State.set_matrixData (map settle (map f (State.matrixData s)))
                                  s))).
Proof.
  unfold mutate, forceRefresh. run. rewrite exec_calculateTotals. reflexivity.
Qed.

Lemma mutate_frame (f : Cell.t -> Cell.t) (s : State.t) :
  same_session_fields s (exec (mutate f) s)
  /\ trace (mutate f) s = []
  /\ List.length (State.matrixData (exec (mutate f) s))
     = List.length (State.matrixData s)
  /\ State.refreshKey (exec (mutate f) s) = State.refreshKey s + 1.
Proof.
  split; [rewrite exec_mutate; repeat split|].
  split; [apply trace_mutate|].
  split; [|now rewrite exec_mutate].
  now rewrite matrixData_mutate, length_map.
Qed.

Lemma skip_frame (s : State.t) :
  same_session_fields s (exec skip s)
  /\ trace skip s = []
  /\ List.length (State.matrixData (exec skip s))
     = List.length (State.matrixData s).
Proof. repeat split. Qed.

Lemma handlePercentageChange_applies event lineItemId userId :
  Target.lineItemId event = Some lineItemId ->
  Target.userId event = Some userId ->
  lineItemId <> "" -> userId <> "" ->
  handlePercentageChange event
  = mutate (percentage_update (cell_id lineItemId userId)
              (JS.float_or_zero (Target.value_parsed event))).
Proof.
  intros Hl Hu Hln Hun. unfold handlePercentageChange. rewrite Hl, Hu.
  destruct lineItemId; [contradiction|]. destruct userId; [contradiction|].
  reflexivity.
Qed.

Lemma float_or_zero_nan (v : float) :
  PrimFloat.is_nan v = true -> JS.float_or_zero v = 0%float.
Proof.
  intros H. unfold JS.float_or_zero, JS.truthy_float. now rewrite H.
Qed.

(** X1. The four matrix handlers write the grid, the two totals and the
    refresh key, nothing else: the loaded data, the stored records, the
    flags and the error stay as they were, nothing is dispatched, and the
    grid keeps its length. When the id a handler needs is missing or empty
    it returns without writing anything; the column handler reads the user
    id from [dataset] alone, so an id present only as an attribute is
    missing for it. *)
Theorem matrix_handlers_frame :
  forall event s,
    (forall handler,
        In handler [ handleCheckboxChange; handlePercentageChange;
                     handleSelectAllForLineItem;
                     handleSelectAllForTeamMember ] ->
        same_session_fields s (exec (handler event) s)
        /\ trace (handler event) s = []
        /\ List.length (State.matrixData (exec (handler event) s))
           = List.length (State.matrixData s)
        /\ (exec (handler event) s = s
            \/ State.refreshKey (exec (handler event) s)
               = State.refreshKey s + 1))
    /\ (JS.falsy (Target.lineItemId event) = true
        \/ JS.falsy (Target.userId event) = true ->
        exec (handleCheckboxChange event) s = s
        /\ exec (handlePercentageChange event) s = s)
    /\ (JS.falsy (Target.lineItemId event) = true ->
        exec (handleSelectAllForLineItem event) s = s)
    /\ (JS.falsy (Target.dataset_userId event) = true ->
        exec (handleSelectAllForTeamMember event) s = s).
Proof.
  intros event s. split; [|split; [|split]].
  - intros handler [<- | [<- | [<- | [<- | []]]]].
    + destruct (handleCheckboxChange_cases event)
        as [-> | (l & u & _ & _ & _ & _ & ->)].
      * destruct (skip_frame s) as (H1 & H2 & H3). auto.
      * destruct (mutate_frame
                    (checkbox_update (cell_id l u) (Target.checked event)) s)
          as (H1 & H2 & H3 & H4). auto.
    + destruct (handlePercentageChange_cases event)
        as [-> | (l & u & _ & _ & _ & _ & ->)].
      * destruct (skip_frame s) as (H1 & H2 & H3). auto.
      * destruct (mutate_frame
                    (percentage_update (cell_id l u)
                       (JS.float_or_zero (Target.value_parsed event))) s)
          as (H1 & H2 & H3 & H4). auto.
    + destruct (handleSelectAllForLineItem_cases event)
        as [-> | (l & _ & _ & ->)].
      * destruct (skip_frame s) as (H1 & H2 & H3). auto.
      * destruct (mutate_frame
                    (lineItem_update (Some l) (Target.checked event)) s)
          as (H1 & H2 & H3 & H4). auto.
    + destruct (handleSelectAllForTeamMember_cases event)
        as [-> | (u & _ & _ & ->)].
      * destruct (skip_frame s) as (H1 & H2 & H3). auto.
      * destruct (mutate_frame
                    (teamMember_update (Some u) (Target.checked event)) s)
          as (H1 & H2 & H3 & H4). auto.
  - intros H. unfold handleCheckboxChange, handlePercentageChange.
    assert (Hor : JS.falsy (Target.lineItemId event)
                  || JS.falsy (Target.userId event) = true)
      by (apply orb_true_iff; exact H).
    rewrite Hor. split; reflexivity.
  - intros H. unfold handleSelectAllForLineItem. now rewrite H.
  - intros H. unfold handleSelectAllForTeamMember. now rewrite H.
Qed.

Lemma matrix_handlers_frame_witness :
  exec (handleSelectAllForTeamMember
          (Target.mk None None None (Some "005X") true PrimFloat.nan))
       Example.loaded
  = Example.loaded
  /\ State.existingCommissions
       (exec (handleCheckboxChange (Example.click "00kA" "005X" true))
             Example.loaded)
     = Example.commissions.
Proof.
  split.
  - exact (proj2 (proj2 (proj2
             (matrix_handlers_frame
                (Target.mk None None None (Some "005X") true PrimFloat.nan)
                Example.loaded))) eq_refl).
  - destruct (proj1 (matrix_handlers_frame
                       (Example.click "00kA" "005X" true) Example.loaded)
                    handleCheckboxChange (or_introl eq_refl))
      as ((_ & _ & _ & Hrec & _) & _).
    rewrite Hrec. reflexivity.
Defined.

(** X2. [handlePercentageChange] for the key of a pair stores the typed
    number as the percentage of the cell with that key, unclamped; a value
    that does not parse ([NaN]), like a typed 0, is stored as 0. The
    selection of every cell stays; the edited cell keeps its other fields,
    its amount being recomputed; every other cell keeps its percentage and,
    its amount being settled, is unchanged. *)
Theorem setPercentage_cells :
  forall s event lineItemId userId,
    Target.lineItemId event = Some lineItemId ->
    Target.userId event = Some userId ->
    lineItemId <> "" -> userId <> "" ->
    dash_free lineItemId = true ->
    Forall (fun c => keyed c /\ dash_free (Cell.lineItemId c) = true)
           (State.matrixData s) ->
    let typed := Target.value_parsed event in
    Forall2
      (fun c c' =>
         same_fixed_fields c c'
         /\ Cell.selected c' = Cell.selected c
         /\ Cell.amount c' = amount_rule c'
         /\ (Cell.lineItemId c = lineItemId /\ Cell.userId c = userId ->
             (ordinary typed -> Cell.percentage c' = typed)
             /\ (PrimFloat.is_nan typed = true ->
                 Cell.percentage c' = 0%float))
         /\ (~ (Cell.lineItemId c = lineItemId /\ Cell.userId c = userId) ->
             Cell.percentage c' = Cell.percentage c
             /\ (Cell.amount c = amount_rule c -> c' = c)))
      (State.matrixData s)
      (State.matrixData (exec (handlePercentageChange event) s)).
Proof.
  intros s event lineItemId userId Hl Hu Hln Hun Hdash Hgrid typed.
  rewrite (handlePercentageChange_applies _ _ _ Hl Hu Hln Hun).
  rewrite matrixData_mutate. apply Forall2_map_right. intros c Hin.
  rewrite Forall_forall in Hgrid. destruct (Hgrid c Hin) as [Hk Hc].
  pose proof (cell_id_eqb c lineItemId userId Hk Hc Hdash) as Hkey.
  unfold percentage_update, same_fixed_fields.
  destruct (String.eqb (Cell.id c) (cell_id lineItemId userId)).
  - split; [repeat split|]. split; [reflexivity|]. split; [reflexivity|].
    split.
    + intros _. split; intros Hv; simpl.
      * now apply float_or_zero_ordinary.
      * now apply float_or_zero_nan.
    + intros Hno. destruct Hno. now apply Hkey.
  - split; [repeat split|]. split; [reflexivity|]. split; [reflexivity|].
    split; [intros Hyes; apply Hkey in Hyes; discriminate Hyes|].
    intros _. split; [reflexivity | apply settle_fixed].
Qed.

Lemma setPercentage_cells_witness :
  map Cell.percentage
      (State.matrixData
         (exec (handlePercentageChange
                  (Example.target "00kA" "005Y" false 250))
               Example.loaded))
  = [10%float; 250%float; 10%float; 5%float]
  /\ Forall2
       (fun c c' =>
          Cell.selected c' = Cell.selected c
          /\ (Cell.lineItemId c = "00kA" /\ Cell.userId c = "005Y" ->
              Cell.percentage c' = 250%float))
       (State.matrixData Example.loaded)
       (State.matrixData
          (exec (handlePercentageChange
                   (Example.target "00kA" "005Y" false 250))
                Example.loaded)).
Proof.
  split; [reflexivity|].
  refine (Forall2_impl _ _
            (setPercentage_cells Example.loaded
               (Example.target "00kA" "005Y" false 250) "00kA" "005Y"
               eq_refl eq_refl _ _ eq_refl _)).
  - intros c c' (_ & Hsel & _ & Hyes & _). split; [exact Hsel|].
    intros Hkey. apply (proj1 (Hyes Hkey)). split; [reflexivity|discriminate].
  - discriminate.
  - discriminate.
  - repeat constructor.
Defined.

(** The totals of two settled states with the same grid agree. *)
Lemma settled_same_grid (s s' : State.t) :
  settled s -> settled s' ->
  State.matrixData s' = State.matrixData s ->
  State.totalCommissions s' = State.totalCommissions s
  /\ State.totalAmount s' = State.totalAmount s.
Proof.
  intros [_ Hc Ha] [_ Hc' Ha'] Hm. rewrite Hc, Ha, Hc', Ha', Hm. auto.
Qed.

Lemma checkbox_update_twice cellId b b0 c :
  (Cell.id c = cellId -> Cell.selected c = b0) ->
  Cell.amount c = amount_rule c ->
  settle (checkbox_update cellId b0 (settle (checkbox_update cellId b c))) = c.
Proof.
  intros Hsel Hamt. unfold checkbox_update.
  destruct (String.eqb_spec (Cell.id c) cellId) as [Heq | Hneq].
  - cbn [settle Cell.id Cell.with_amount Cell.with_selected].
    rewrite (proj2 (String.eqb_eq _ _) Heq).
    specialize (Hsel Heq). destruct c as [i l u n1 n2 n3 m sel p d a e].
    cbn in *. subst sel. unfold settle, amount_rule in *. cbn in *.
    now rewrite <- Hamt.
  - cbn [settle Cell.id Cell.with_amount].
    rewrite (proj2 (String.eqb_neq _ _) Hneq).
    now rewrite settle_idempotent, settle_fixed.
Qed.

(** X3. Toggling a cell and toggling it back undoes the first toggle: when
    the second [handleCheckboxChange] carries the selection the cell had,
    the grid and both totals of a settled component are again what they
    were. *)
Theorem toggle_round_trip :
  forall s event back lineItemId userId,
    Target.lineItemId event = Some lineItemId ->
    Target.userId event = Some userId ->
    Target.lineItemId back = Some lineItemId ->
    Target.userId back = Some userId ->
    lineItemId <> "" -> userId <> "" ->
    Forall (fun c =>
              Cell.id c = cell_id lineItemId userId ->
              Cell.selected c = Target.checked back)
           (State.matrixData s) ->
    settled s ->
    let s' := exec (handleCheckboxChange back)
                   (exec (handleCheckboxChange event) s) in
    State.matrixData s' = State.matrixData s
    /\ State.totalCommissions s' = State.totalCommissions s
    /\ State.totalAmount s' = State.totalAmount s.
Proof.
  intros s event back lineItemId userId Hl Hu Hl' Hu' Hln Hun Hsel Hs s'.
  subst s'.
  rewrite (handleCheckboxChange_applies back _ _ Hl' Hu' Hln Hun).
  rewrite (handleCheckboxChange_applies event _ _ Hl Hu Hln Hun).
  assert (Hgrid :
    State.matrixData
      (exec (mutate (checkbox_update (cell_id lineItemId userId)
                                     (Target.checked back)))
         (exec (mutate (checkbox_update (cell_id lineItemId userId)
                                        (Target.checked event))) s))
    = State.matrixData s).
  { rewrite !matrixData_mutate, map_map.
    rewrite <- (map_id (State.matrixData s)) at 2.
    apply map_ext_in. intros c Hin.
    destruct Hs as [Hrule _ _]. rewrite Forall_forall in Hrule, Hsel.
    apply checkbox_update_twice; auto. }
  split; [exact Hgrid|].
  apply settled_same_grid; [exact Hs | apply mutate_settles | exact Hgrid].
Qed.

Lemma toggle_round_trip_witness :
  State.matrixData
    (exec (handleCheckboxChange (Example.click "00kA" "005X" false))
       (exec (handleCheckboxChange (Example.click "00kA" "005X" true))
             Example.loaded))
  = State.matrixData Example.loaded
  /\ State.totalAmount
       (exec (handleCheckboxChange (Example.click "00kA" "005X" true))
             Example.loaded)
     = 275%float
  /\ State.totalAmount Example.loaded = 175%float.
Proof.
  split; [|split; reflexivity].
  refine (proj1 (toggle_round_trip Example.loaded
                   (Example.click "00kA" "005X" true)
                   (Example.click "00kA" "005X" false) "00kA" "005X"
                   eq_refl eq_refl eq_refl eq_refl _ _ _ _)).
  - discriminate.
  - discriminate.
  - repeat constructor; intros H; solve [reflexivity | discriminate H].
  - apply handle_settled, initial_settled.
Defined.

(** ** Loading *)

(** X4. When the load is rejected, [loadData] writes only the error text
    and the loading flag: the grid, its totals, the loaded data and the
    stored records stay as they were, and after the two Apex calls exactly
    one error toast is shown. The text is built from [error.body.message]
    alone: [error.message] is never used, and an error without a body reads
    as undefined. *)
Theorem loadData_rejected :
  forall error s,
    let text := "Error loading data: " ++ JS.show (body_message error) in
    exec (loadData (Rejected error)) s
    = State.set_isLoading false (State.set_error (Some text) s)
    /\ trace (loadData (Rejected error)) s
       = [ GetOpportunityData (State.opportunityId s);
           GetExistingCommissions (State.opportunityId s);
           ShowToast "Error" text "error" ]
    /\ (body_message error = None ->
        State.error (exec (loadData (Rejected error)) s)
        = Some "Error loading data: undefined").
Proof.
  intros error s text. subst text. unfold loadData. run.
  split; [reflexivity|]. split; [reflexivity|].
  intros Hnone. simpl. now rewrite Hnone.
Qed.

Lemma loadData_rejected_witness :
  State.error
    (exec (loadData (Rejected {| body_message := None;
                                 message := Some "Network down" |}))
          (State.initial "006Z"))
  = Some "Error loading data: undefined"
  /\ State.matrixData
       (exec (loadData (Rejected {| body_message := None;
                                    message := Some "Network down" |}))
             (State.initial "006Z"))
     = [].
Proof.
  split.
  - exact (proj2 (proj2 (loadData_rejected
                           {| body_message := None;
                              message := Some "Network down" |}
                           (State.initial "006Z"))) eq_refl).
  - now rewrite (proj1 (loadData_rejected
                          {| body_message := None;
                             message := Some "Network down" |}
                          (State.initial "006Z"))).
Defined.

Lemma exec_initializeMatrix (s : State.t) :
  exec initializeMatrix s
  = State.set_showDuplicateOptions false
      (exec calculateTotals
         (State.set_matrixData
            (build_matrix (State.opportunityData s)
                          (State.existingCommissions s)) s)).
Proof. unfold initializeMatrix. now run. Qed.

(** X5. When the load resolves, [loadData] stores the data and the records,
    builds the reconciled grid with settled totals, clears the loading flag
    and the error, and shows no toast; the duplicate options are offered
    exactly when at least one stored record came back. *)
Theorem loadData_resolved :
  forall data existing s,
    let s' := exec (loadData (Resolved (data, existing))) s in
    State.opportunityData s' = data
    /\ State.existingCommissions s' = existing
    /\ State.matrixData s' = map settle (build_matrix data existing)
    /\ settled s'
    /\ State.isLoading s' = false
    /\ State.error s' = None
    /\ State.hasExistingCommissions s' = State.showDuplicateOptions s'
    /\ (State.showDuplicateOptions s' = true <-> existing <> [])
    /\ trace (loadData (Resolved (data, existing))) s
       = [ GetOpportunityData (State.opportunityId s);
           GetExistingCommissions (State.opportunityId s) ].
Proof.
  intros data existing s s'. subst s'.
  assert (Hs : settled (exec (loadData (Resolved (data, existing))) s)).
  { unfold loadData. run.
    match goal with
    | |- context [exec initializeMatrix ?t] =>
        pose proof (initializeMatrix_settles t) as Hi;
        destruct (State.hasExistingCommissions (exec initializeMatrix t))
    end; run; exact Hi. }
  revert Hs. unfold loadData. run.
  rewrite !trace_initializeMatrix, !exec_initializeMatrix,
    !exec_calculateTotals.
  cbn [State.hasExistingCommissions State.set_showDuplicateOptions
       State.set_totalAmount State.set_totalCommissions State.set_matrixData
       State.set_hasExistingCommissions State.set_existingCommissions
       State.set_opportunityData State.set_error State.set_isLoading
       State.matrixData State.opportunityData State.existingCommissions
       State.opportunityId].
  destruct existing as [|comm rest]; cbn [List.length Nat.ltb Nat.leb];
    run; intros Hs; cbn.
  - repeat (split; [reflexivity || exact Hs|]).
    split; [|reflexivity]. split; [discriminate | intros H; now destruct H].
  - repeat (split; [reflexivity || exact Hs|]).
    split; [|reflexivity]. split; [discriminate | reflexivity].
Qed.

(** X6. [initializeMatrix], and so [handleEditExisting], rebuilds the grid
    from the loaded data and the stored records alone: whatever the grid
    and the totals were, edits included, the result is the same, and
    running it again changes nothing. It hides the duplicate options and
    dispatches nothing. *)
Theorem initializeMatrix_resets :
  forall s,
    (forall grid count total,
        exec handleEditExisting
          (State.set_totalAmount total
             (State.set_totalCommissions count
                (State.set_matrixData grid s)))
        = exec handleEditExisting s)
    /\ exec initializeMatrix (exec initializeMatrix s) = exec initializeMatrix s
    /\ State.showDuplicateOptions (exec initializeMatrix s) = false
    /\ trace initializeMatrix s = [].
Proof.
  intros s. split; [|split; [|split]].
  - intros grid count total. unfold handleEditExisting.
    rewrite !exec_initializeMatrix, !exec_calculateTotals. reflexivity.
  - rewrite (exec_initializeMatrix (exec initializeMatrix s)).
    rewrite !exec_initializeMatrix, !exec_calculateTotals. reflexivity.
  - now rewrite exec_initializeMatrix.
  - apply trace_initializeMatrix.
Qed.

(** ** The grid mirrors the loaded data *)

Lemma list_prod_nil_r {A B : Type} (l : list A) : list_prod l (@nil B) = [].
Proof. induction l as [|x l IH]; simpl; [reflexivity | exact IH]. Qed.

(** The grid the two loops build, whether or not the lists are there. *)
Lemma build_matrix_pairs (data : OpportunityData.t)
  (existing : list Commission.t) :
  build_matrix data existing
  = map (fun p => new_cell existing (fst p) (snd p)) (pairs_of data).
Proof.
  unfold pairs_of.
  destruct (OpportunityData.lineItems data) as [lis|] eqn:Hl;
    destruct (OpportunityData.teamMembers data) as [tms|] eqn:Ht.
  - now apply build_matrix_loaded.
  - unfold build_matrix. rewrite Hl, Ht. simpl. rewrite list_prod_nil_r.
    clear Hl. induction lis as [|li lis IH]; simpl; [reflexivity | exact IH].
  - unfold build_matrix. now rewrite Hl.
  - unfold build_matrix. now rewrite Hl.
Qed.

Lemma same_fixed_fields_trans (a b c : Cell.t) :
  same_fixed_fields a b -> same_fixed_fields b c -> same_fixed_fields a c.
Proof.
  unfold same_fixed_fields.
  intros (H1 & H2 & H3 & H4 & H5 & H6 & H7 & H8 & H9)
         (K1 & K2 & K3 & K4 & K5 & K6 & K7 & K8 & K9).
  repeat split; congruence.
Qed.

Lemma mirrors_same (s s' : State.t) :
  State.matrixData s' = State.matrixData s ->
  State.opportunityData s' = State.opportunityData s ->
  State.existingCommissions s' = State.existingCommissions s ->
  mirrors_loaded_data s -> mirrors_loaded_data s'.
Proof.
  unfold mirrors_loaded_data. intros -> -> ->. exact (fun H => H).
Qed.

Lemma mirrors_rebuilt (s : State.t) :
  State.matrixData s
  = map settle (build_matrix (State.opportunityData s)
                             (State.existingCommissions s)) ->
  mirrors_loaded_data s.
Proof.
  unfold mirrors_loaded_data. intros ->.
  rewrite build_matrix_pairs, map_map.
  apply Forall2_map_self. intros p _. repeat split.
Qed.

Lemma mirrors_mutate (f : Cell.t -> Cell.t) (s : State.t) :
  (forall c, same_fixed_fields c (f c)) ->
  mirrors_loaded_data s -> mirrors_loaded_data (exec (mutate f) s).
Proof.
  intros Hf. unfold mirrors_loaded_data.
  rewrite matrixData_mutate, exec_mutate.
  cbn [State.existingCommissions State.opportunityData State.set_refreshKey
       State.set_totalAmount State.set_totalCommissions State.set_matrixData].
  induction 1 as [|c p cells pairs Hc _ IH]; simpl; constructor.
  - apply (same_fixed_fields_trans _ c); [exact Hc|].
    apply (same_fixed_fields_trans _ (f c)); [apply Hf | repeat split].
  - exact IH.
Qed.

Lemma loadData_resolved_grid data existing s :
  let s' := exec (loadData (Resolved (data, existing))) s in
  State.opportunityData s' = data
  /\ State.existingCommissions s' = existing
  /\ State.matrixData s' = map settle (build_matrix data existing).
Proof.
  unfold loadData. run.
  rewrite !exec_initializeMatrix, !exec_calculateTotals.
  cbn [State.hasExistingCommissions State.set_showDuplicateOptions
       State.set_totalAmount State.set_totalCommissions State.set_matrixData
       State.set_hasExistingCommissions State.set_existingCommissions
       State.set_opportunityData State.set_error State.set_isLoading
       State.matrixData State.opportunityData State.existingCommissions].
  destruct (Nat.ltb 0 (List.length existing)); run; cbn; auto.
Qed.

Lemma handleDeleteAndRecreate_resolved_grid u s :
  let s' := exec (handleDeleteAndRecreate (Resolved u)) s in
  State.opportunityData s' = State.opportunityData s
  /\ State.existingCommissions s' = []
  /\ State.matrixData s'
     = map settle (build_matrix (State.opportunityData s) []).
Proof.
  unfold handleDeleteAndRecreate. run.
  rewrite !exec_initializeMatrix, !exec_calculateTotals. cbn. auto.
Qed.

Lemma handleGenerateCommissions_data (r : Settled SubmitResult) (s : State.t) :
  State.opportunityData (exec (handleGenerateCommissions r) s)
  = State.opportunityData s
  /\ State.isProcessing (exec (handleGenerateCommissions r) s) = false.
Proof.
  unfold handleGenerateCommissions. run. simpl.
  destruct (Nat.eqb _ 0); [run; auto|].
  destruct r as [result|err]; [destruct (success result)|]; run; auto.
Qed.

Lemma handle_mirrors (i : Interaction) (s : State.t) :
  mirrors_loaded_data s -> mirrors_loaded_data (exec (handle i) s).
Proof.
  intros Hm. destruct i as [r| | |r|e|e|e|e|r]; simpl.
  - destruct r as [[data existing]|err].
    + destruct (loadData_resolved_grid data existing s) as (Hd & He & Hg).
      apply mirrors_rebuilt. now rewrite Hd, He, Hg.
    + unfold loadData. run. exact Hm.
  - apply mirrors_rebuilt.
    rewrite exec_initializeMatrix, exec_calculateTotals. reflexivity.
  - unfold handleCancel, closeFlowAndRefresh. run. exact Hm.
  - destruct r as [u|err].
    + destruct (handleDeleteAndRecreate_resolved_grid u s) as (Hd & He & Hg).
      apply mirrors_rebuilt. now rewrite Hd, He, Hg.
    + unfold handleDeleteAndRecreate. run. exact Hm.
  - destruct (handleCheckboxChange_cases e)
      as [-> | (l & u & _ & _ & _ & _ & ->)]; [exact Hm|].
    apply mirrors_mutate; [|exact Hm].
    intros c. unfold checkbox_update. destruct (String.eqb _ _); repeat split.
  - destruct (handlePercentageChange_cases e)
      as [-> | (l & u & _ & _ & _ & _ & ->)]; [exact Hm|].
    apply mirrors_mutate; [|exact Hm].
    intros c. unfold percentage_update. destruct (String.eqb _ _);
      repeat split.
  - destruct (handleSelectAllForLineItem_cases e) as [-> | (l & _ & _ & ->)];
      [exact Hm|].
    apply mirrors_mutate; [|exact Hm].
    intros c. unfold lineItem_update.
    destruct (strict_eq _ _); [destruct (_ && _)|]; repeat split.
  - destruct (handleSelectAllForTeamMember_cases e) as [-> | (u & _ & _ & ->)];
      [exact Hm|].
    apply mirrors_mutate; [|exact Hm].
    intros c. unfold teamMember_update.
    destruct (strict_eq _ _); [destruct (Target.checked e)|]; repeat split.
  - destruct (handleGenerateCommissions_grid r s) as (Hg & _ & _ & He).
    destruct (handleGenerateCommissions_data r s) as (Hd & _).
    now apply (mirrors_same s).
Qed.

Lemma reachable_mirrors opportunityId s :
  reachable opportunityId s -> mirrors_loaded_data s.
Proof.
  induction 1 as [|s i _ IH]; [constructor | now apply handle_mirrors].
Qed.

Lemma Forall2_map_eq {A B C : Type} (R : A -> B -> Prop)
  (f : A -> C) (g : B -> C) (l : list A) (l' : list B) :
  (forall a b, R a b -> f a = g b) ->
  Forall2 R l l' -> map f l = map g l'.
Proof.
  intros H. induction 1 as [|a b l l' Hab _ IH]; simpl; [reflexivity|].
  now rewrite IH, (H a b Hab).
Qed.

(** X7. Throughout a session the grid mirrors the loaded data: it holds one
    cell per pair of loaded line item and team member, in row order, and
    each cell's identifiers, names, margin, default percentage and record
    id are those the reconciler derives from its pair and the records
    currently stored. Before any load, and after a failed one, both are
    empty. *)
Theorem grid_mirrors_loaded_data :
  forall opportunityId s,
    reachable opportunityId s ->
    mirrors_loaded_data s
    /\ List.length (State.matrixData s)
       = List.length
           (or_empty (OpportunityData.lineItems (State.opportunityData s)))
         * List.length
             (or_empty (OpportunityData.teamMembers (State.opportunityData s)))
    /\ map (fun c => (Cell.lineItemId c, Cell.userId c)) (State.matrixData s)
       = map (fun p => (LineItem.Id (fst p), TeamMember.userId (snd p)))
             (pairs_of (State.opportunityData s)).
Proof.
  intros opportunityId s Hreach.
  pose proof (reachable_mirrors _ _ Hreach) as Hm.
  split; [exact Hm|]. split.
  - rewrite (Forall2_length Hm). apply length_prod.
  - refine (Forall2_map_eq _ _ _ _ _ _ Hm).
    intros c p (_ & Hl & Hu & _). simpl in Hl, Hu. now rewrite Hl, Hu.
Qed.

Lemma grid_mirrors_loaded_data_witness :
  map (fun c => (Cell.lineItemId c, Cell.userId c))
      (State.matrixData Example.edited)
  = [ ("00kA", "005X"); ("00kA", "005Y"); ("00kB", "005X"); ("00kB", "005Y") ]
  /\ List.length (State.matrixData Example.edited) = 4.
Proof.
  assert (Hreach : reachable "006Z" Example.edited).
  { unfold Example.edited, Example.loaded.
    repeat apply reachable_step. apply reachable_initial. }
  destruct (grid_mirrors_loaded_data "006Z" Example.edited Hreach)
    as (_ & Hlen & Hkeys).
  split; [exact Hkeys | exact Hlen].
Defined.

(** ** Submitting *)

(** X8. Whatever the backend answers, a submission leaves the grid, the
    totals, the loaded data and the stored records alone and ends with the
    processing flag cleared. With cells selected, a successful answer
    stores the sum of created and updated records, shows the success toast
    and arms the timer that closes the flow; a reported failure shows one
    error toast with the composed message, and a rejected call one error
    toast with the body message; neither touches the stored count. The
    timer is armed in no other case. *)
Theorem submission_outcomes :
  forall r s,
    let s' := exec (handleGenerateCommissions r) s in
    let effects := trace (handleGenerateCommissions r) s in
    let call :=
      CreateUpdateCommissions (State.opportunityId s)
        (map apex_cell (selected_cells (State.matrixData s))) in
    (State.matrixData s' = State.matrixData s
     /\ State.totalCommissions s' = State.totalCommissions s
     /\ State.totalAmount s' = State.totalAmount s
     /\ State.existingCommissions s' = State.existingCommissions s
     /\ State.opportunityData s' = State.opportunityData s
     /\ State.isProcessing s' = false)
    /\ (In (SetTimeoutCloseFlow 1500) effects
        <-> selected_cells (State.matrixData s) <> []
            /\ exists result, r = Resolved result /\ success result = true)
    /\ (selected_cells (State.matrixData s) <> [] ->
        match r with
        | Resolved result =>
            if success result then
              effects
              = [ call;
                  ShowToast "Success"
                    ("Successfully processed "
                     ++ JS.show_nat (recordsCreated result
                                     + recordsUpdated result)
                     ++ " commission records ("
                     ++ JS.show_nat (recordsCreated result) ++ " created, "
                     ++ JS.show_nat (recordsUpdated result) ++ " updated)")
                    "success";
                  SetTimeoutCloseFlow 1500 ]
              /\ State.commissionsCreated s'
                 = recordsCreated result + recordsUpdated result
            else
              effects
              = [ call;
                  ShowToast "Error" (submission_error_message result) "error" ]
              /\ State.commissionsCreated s' = State.commissionsCreated s
        | Rejected error =>
            effects
            = [ call;
                ShowToast "Error"
                  ("Error creating commissions: "
                   ++ JS.show (body_message error))
                  "error" ]
            /\ State.commissionsCreated s' = State.commissionsCreated s
        end).
Proof.
  intros r s s' effects call. subst s' effects call.
  split.
  { destruct (handleGenerateCommissions_grid r s) as (H1 & H2 & H3 & H4).
    destruct (handleGenerateCommissions_data r s) as (H5 & H6). auto 10. }
  unfold handleGenerateCommissions. run.
  cbn [State.matrixData State.set_isProcessing State.opportunityId].
  unfold selected_cells.
  destruct (filter Cell.selected (State.matrixData s)) as [|c cs] eqn:Hsel.
  - cbn [List.length Nat.eqb]. run. split.
    + split.
      * intros [H | []]. discriminate H.
      * intros [H _]. now destruct H.
    + intros H. now destruct H.
  - cbn [List.length Nat.eqb].
    destruct r as [result|err]; [destruct (success result) eqn:Hok|]; run.
    + split.
      * split; [intros _|intros _; simpl; auto].
        split; [discriminate|]. exists result. auto.
      * intros _. split; reflexivity.
    + split.
      * split.
        -- intros [H | [H | []]]; discriminate H.
        -- intros (_ & result' & Hr & Hok'). injection Hr as <-. congruence.
      * intros _. split; reflexivity.
    + split.
      * split.
        -- intros [H | [H | []]]; discriminate H.
        -- intros (_ & result' & Hr & _). discriminate Hr.
      * intros _. split; reflexivity.
Qed.

Lemma submission_outcomes_witness :
  trace (handleGenerateCommissions
           (Resolved {| success := false; recordsCreated := 0;
                        recordsUpdated := 0; errorMessage := Some "";
                        partialErrors := Some [] |}))
        Example.loaded
  = [ CreateUpdateCommissions "006Z"
        [ ApexCell.mk "00kA" "005Y" true 15 150;
          ApexCell.mk "00kB" "005X" true 10 25 ];
      ShowToast "Error" "Unknown error occurred" "error" ]
  /\ State.isProcessing
       (exec (handleGenerateCommissions
                (Rejected {| body_message := None; message := None |}))
             Example.loaded)
     = false.
Proof.
  split; [reflexivity|].
  exact (proj2 (proj2 (proj2 (proj2 (proj2 (proj1
           (submission_outcomes
              (Rejected {| body_message := None; message := None |})
              Example.loaded))))))).
Defined.

Lemma reachable_settled opportunityId s :
  reachable opportunityId s -> settled s.
Proof.
  induction 1 as [|s i _ IH]; [apply initial_settled | now apply handle_settled].
Qed.







Lemma fold_left_add_map_apex (cells : list Cell.t) (a : float) :
  fold_left PrimFloat.add (map ApexCell.amount (map apex_cell cells)) a
  = fold_left PrimFloat.add (map Cell.amount cells) a.
Proof. now rewrite map_map. Qed.

(** X10. What a settled component sends agrees with what it shows: the
    sequence handed to [createUpdateCommissions] has [totalCommissions]
    entries, their amounts add up, in order, to [totalAmount], and every
    entry is selected with its amount equal to the cell's margin times its
    percentage over 100. *)
Theorem payload_matches_totals :
  forall r s,
    settled s ->
    selected_cells (State.matrixData s) <> [] ->
    exists cellsForApex rest,
      trace (handleGenerateCommissions r) s
      = CreateUpdateCommissions (State.opportunityId s) cellsForApex :: rest
      /\ List.length cellsForApex = State.totalCommissions s
      /\ sum_amounts (map ApexCell.amount cellsForApex) = State.totalAmount s
      /\ Forall2
           (fun c sent =>
              ApexCell.selected sent = true
              /\ ApexCell.amount sent
                 = (Cell.lineMargin c * (ApexCell.percentage sent / 100))%float)
           (selected_cells (State.matrixData s)) cellsForApex.
Proof.
  intros r s [Hrule Hcount Htotal] Hsel.
  destruct (trace_handleGenerateCommissions_some r s Hsel) as (rest & Hrest & _).
  eexists _, rest. split; [exact Hrest|].
  split; [now rewrite length_map, Hcount|].
  split; [unfold sum_amounts; now rewrite fold_left_add_map_apex, Htotal|].
  apply Forall2_map_right. intros c Hin.
  apply filter_In in Hin. destruct Hin as [Hin Hc].
  rewrite Forall_forall in Hrule. specialize (Hrule c Hin).
  unfold apex_cell. simpl. split; [exact Hc|].
  rewrite Hrule. unfold amount_rule. now rewrite Hc.
Qed.

Lemma payload_matches_totals_witness :
  State.totalCommissions Example.edited = 2
  /\ State.totalAmount Example.edited = 180%float
  /\ exists cellsForApex rest,
       trace (handleGenerateCommissions
                (Rejected {| body_message := None; message := None |}))
             Example.edited
       = CreateUpdateCommissions "006Z" cellsForApex :: rest
       /\ List.length cellsForApex = 2
       /\ sum_amounts (map ApexCell.amount cellsForApex) = 180%float.
Proof.
  split; [reflexivity|]. split; [reflexivity|].
  destruct (payload_matches_totals
              (Rejected {| body_message := None; message := None |})
              Example.edited)
    as (cells & rest & Htrace & Hlen & Hsum & _).
  - unfold Example.edited. repeat apply handle_settled. apply initial_settled.
  - discriminate.
  - exists cells, rest. split; [exact Htrace|].
    split; [exact Hlen | exact Hsum].
Defined.

(** ** What the template shows *)

Lemma find_key_some (grid : list Cell.t) (lineItemId userId : string) c :
  find (fun cell => String.eqb (Cell.lineItemId cell) lineItemId
                    && String.eqb (Cell.userId cell) userId) grid = Some c ->
  In c grid /\ Cell.lineItemId c = lineItemId /\ Cell.userId c = userId.
Proof.
  intros H. apply find_some in H. destruct H as [Hin Hkey].
  apply andb_true_iff in Hkey. destruct Hkey as [Hl Hu].
  apply String.eqb_eq in Hl, Hu. auto.
Qed.

Lemma find_key_none (grid : list Cell.t) (lineItemId userId : string) :
  find (fun cell => String.eqb (Cell.lineItemId cell) lineItemId
                    && String.eqb (Cell.userId cell) userId) grid = None ->
  forall c, In c grid ->
            ~ (Cell.lineItemId c = lineItemId /\ Cell.userId c = userId).
Proof.
  intros H c Hin [Hl Hu]. pose proof (find_none _ _ H c Hin) as Hf.
  simpl in Hf. rewrite Hl, Hu, !String.eqb_refl in Hf. discriminate Hf.
Qed.

(** X11. [getMatrixCell] reports a match exactly when the grid holds a cell
    of that line item and user, and then shows that cell's selection,
    percentage, amount and id. For a pair the grid does not hold it answers
    with an unselected cell at 0 percent and amount 0, keyed
    [lineItemId_userId]. *)
Theorem getMatrixCell_lookup :
  forall formatCurrency s lineItemId userId,
    let shown := getMatrixCell formatCurrency s lineItemId userId in
    (MatrixCell.match_ shown = true
     <-> exists c, In c (State.matrixData s)
                   /\ Cell.lineItemId c = lineItemId
                   /\ Cell.userId c = userId)
    /\ (MatrixCell.match_ shown = true ->
        exists c, In c (State.matrixData s)
                  /\ Cell.lineItemId c = lineItemId
                  /\ Cell.userId c = userId
                  /\ MatrixCell.selected shown = Cell.selected c
                  /\ MatrixCell.percentage shown = Cell.percentage c
                  /\ MatrixCell.amount shown = Cell.amount c
                  /\ MatrixCell.formattedAmount shown
                     = formatCurrency (Cell.amount c)
                  /\ MatrixCell.key shown = Cell.id c)
    /\ (MatrixCell.match_ shown = false ->
        shown = {| MatrixCell.selected := false;
                   MatrixCell.percentage := 0%float;
                   MatrixCell.amount := 0%float;
                   MatrixCell.formattedAmount := formatCurrency 0%float;
                   MatrixCell.match_ := false;
                   MatrixCell.key := lineItemId ++ "_" ++ userId |}).
Proof.
  intros formatCurrency s lineItemId userId shown. subst shown.
  unfold getMatrixCell.
  destruct (find _ (State.matrixData s)) as [c|] eqn:Hfind; simpl.
  - destruct (find_key_some _ _ _ _ Hfind) as (Hin & Hl & Hu).
    split; [|split].
    + split; [intros _; exists c; auto | reflexivity].
    + intros _. exists c. repeat split; assumption.
    + discriminate.
  - pose proof (find_key_none _ _ _ Hfind) as Hnone.
    split; [|split].
    + split; [discriminate|]. intros (c & Hin & Hkey).
      now destruct (Hnone c Hin).
    + discriminate.
    + reflexivity.
Qed.

Lemma Forall2_In_r {A B : Type} (R : A -> B -> Prop) (l : list A)
  (l' : list B) (y : B) :
  Forall2 R l l' -> In y l' -> exists x, In x l /\ R x y.
Proof.
  induction 1 as [|a b l l' Hab _ IH]; intros Hin; [destruct Hin|].
  destruct Hin as [<- | Hin].
  - exists a. split; [now left | exact Hab].
  - destruct (IH Hin) as (x & Hx & Hr). exists x. split; [now right | exact Hr].
Qed.

Lemma grid_holds_pair (s : State.t) li tm :
  mirrors_loaded_data s ->
  In li (or_empty (OpportunityData.lineItems (State.opportunityData s))) ->
  In tm (or_empty (OpportunityData.teamMembers (State.opportunityData s))) ->
  exists c, In c (State.matrixData s)
            /\ Cell.lineItemId c = LineItem.Id li
            /\ Cell.userId c = TeamMember.userId tm.
Proof.
  intros Hm Hli Htm.
  destruct (Forall2_In_r _ _ _ (li, tm) Hm (in_prod _ _ _ _ Hli Htm))
    as (c & Hin & (_ & Hl & Hu & _)).
  exists c. auto.
Qed.

Lemma getMatrixCell_found formatCurrency (s : State.t) lineItemId userId :
  (exists c, In c (State.matrixData s)
             /\ Cell.lineItemId c = lineItemId /\ Cell.userId c = userId) ->
  MatrixCell.match_ (getMatrixCell formatCurrency s lineItemId userId) = true.
Proof.
  intros (c & Hin & Hkey). unfold getMatrixCell.
  destruct (find _ (State.matrixData s)) as [c'|] eqn:Hfind; [reflexivity|].
  now destruct (find_key_none _ _ _ Hfind c Hin).
Qed.

(** X12. Throughout a session [matrixDisplay] has one row per loaded line
    item, in order, each with one cell per loaded team member, in order,
    and every one of these cells is matched by a cell of the grid: the
    display never falls back to the placeholder of an absent pair. *)
Theorem matrixDisplay_dense :
  forall formatCurrency opportunityId s,
    reachable opportunityId s ->
    Forall2
      (fun row li =>
         DisplayRow.lineItem row = li
         /\ DisplayRow.formattedMargin row
            = formatCurrency (JS.or_zero (LineItem.Line_Margin__c li))
         /\ Forall2
              (fun shown tm =>
                 DisplayCell.lineItemId shown = LineItem.Id li
                 /\ DisplayCell.userId shown = TeamMember.userId tm
                 /\ DisplayCell.teamMemberName shown = TeamMember.name tm
                 /\ MatrixCell.match_ (DisplayCell.cellData shown) = true)
              (DisplayRow.cells row) (teamMembers s))
      (matrixDisplay formatCurrency s)
      (or_empty (OpportunityData.lineItems (State.opportunityData s))).
Proof.
  intros formatCurrency opportunityId s Hreach.
  pose proof (reachable_mirrors _ _ Hreach) as Hm.
  unfold matrixDisplay, teamMembers.
  apply Forall2_map_self. intros li Hli.
  split; [reflexivity|]. split; [reflexivity|].
  apply Forall2_map_self. intros tm Htm. cbn.
  repeat (split; [reflexivity|]).
  apply (getMatrixCell_found formatCurrency).
  now apply grid_holds_pair.
Qed.

Lemma matrixDisplay_dense_witness :
  List.length (matrixDisplay (fun _ => "") Example.edited) = 2
  /\ map (fun row =>
            map (fun shown =>
                   (MatrixCell.match_ (DisplayCell.cellData shown),
                    MatrixCell.percentage (DisplayCell.cellData shown)))
                (DisplayRow.cells row))
         (matrixDisplay (fun _ => "") Example.edited)
     = [ [ (true, 10%float); (true, 15%float) ];
         [ (true, 12%float); (true, 0%float) ] ].
Proof.
  split; [|reflexivity].
  assert (Hreach : reachable "006Z" Example.edited).
  { unfold Example.edited, Example.loaded.
    repeat apply reachable_step. apply reachable_initial. }
  exact (eq_trans
           (Forall2_length
              (matrixDisplay_dense (fun _ => "") "006Z" Example.edited Hreach))
           eq_refl).
Defined.

Lemma NoDup_map_In_inj {A B : Type} (f : A -> B) (l : list A) x y :
  NoDup (map f l) -> In x l -> In y l -> f x = f y -> x = y.
Proof.
  induction l as [|a l IH]; intros Hnd Hx Hy Hf; [destruct Hx|].
  simpl in Hnd. inversion Hnd as [|? ? Hnotin Hnd']; subst.
  destruct Hx as [<- | Hx]; destruct Hy as [<- | Hy].
  - reflexivity.
  - destruct Hnotin. rewrite Hf. now apply in_map.
  - destruct Hnotin. rewrite <- Hf. now apply in_map.
  - now apply IH.
Qed.

(** X13. Right after reconciliation the lookup returns what the reconciler
    built: when the loaded line items have distinct ids and the team
    members distinct user ids, [getMatrixCell] for a loaded pair is matched
    and shows the selection and percentage of the pair's own cell, its
    amount by the rule, and the key [lineItemId-userId]. *)
Theorem getMatrixCell_after_reconcile :
  forall formatCurrency s lineItems teamMembers li tm,
    OpportunityData.lineItems (State.opportunityData s) = Some lineItems ->
    OpportunityData.teamMembers (State.opportunityData s) = Some teamMembers ->
    NoDup (map LineItem.Id lineItems) ->
    NoDup (map TeamMember.userId teamMembers) ->
    In li lineItems -> In tm teamMembers ->
    let cell := new_cell (State.existingCommissions s) li tm in
    getMatrixCell formatCurrency (exec initializeMatrix s)
                  (LineItem.Id li) (TeamMember.userId tm)
    = {| MatrixCell.selected := Cell.selected cell;
         MatrixCell.percentage := Cell.percentage cell;
         MatrixCell.amount := amount_rule cell;
         MatrixCell.formattedAmount := formatCurrency (amount_rule cell);
         MatrixCell.match_ := true;
         MatrixCell.key := cell_id (LineItem.Id li) (TeamMember.userId tm) |}.
Proof.
  intros formatCurrency s lineItems teamMembers li tm Hl Ht Hndl Hndt Hli Htm
    cell. subst cell.
  unfold getMatrixCell.
  rewrite matrixData_initializeMatrix, (build_matrix_loaded _ _ _ _ Hl Ht).
  rewrite map_map.
  destruct (find _ _) as [c|] eqn:Hfind.
  - destruct (find_key_some _ _ _ _ Hfind) as (Hin & Hkl & Hku).
    apply in_map_iff in Hin. destruct Hin as ([li' tm'] & <- & Hin).
    apply in_prod_iff in Hin. destruct Hin as [Hli' Htm'].
    simpl in Hkl, Hku.
    assert (li' = li) as -> by (now apply (NoDup_map_In_inj LineItem.Id lineItems)).
    assert (tm' = tm) as ->
      by (now apply (NoDup_map_In_inj TeamMember.userId teamMembers)).
    reflexivity.
  - exfalso.
    apply (find_key_none _ _ _ Hfind
             (settle (new_cell (State.existingCommissions s) li tm))).
    + apply in_map_iff. exists (li, tm). split; [reflexivity|].
      now apply in_prod.
    + split; reflexivity.
Qed.

Lemma getMatrixCell_after_reconcile_witness :
  getMatrixCell (fun _ => "") (exec initializeMatrix Example.loaded)
                "00kA" "005Y"
  = {| MatrixCell.selected := true;
       MatrixCell.percentage := 15%float;
       MatrixCell.amount := 150%float;
       MatrixCell.formattedAmount := "";
       MatrixCell.match_ := true;
       MatrixCell.key := "00kA-005Y" |}.
Proof.
  refine (eq_trans
            (getMatrixCell_after_reconcile (fun _ => "") Example.loaded
               Example.lineItems Example.teamMembers
               (LineItem.mk "00kA" (Some "Widget") (Some "Widget Pro")
                            (JS.Num 1000))
               (TeamMember.mk "005Y" (Some "Ben") (Some "Sales Manager")
                              (JS.Num 5))
               eq_refl eq_refl _ _ _ _)
            eq_refl).
  - repeat constructor; simpl; intuition discriminate.
  - repeat constructor; simpl; intuition discriminate.
  - simpl. auto.
  - simpl. auto.
Defined.

(** ** Empty selections and empty data *)

Lemma selected_cells_none (grid : list Cell.t) :
  Forall (fun c => Cell.selected c = false) grid -> selected_cells grid = [].
Proof.
  induction 1 as [|c rest Hc _ IH]; simpl; [reflexivity|].
  now rewrite Hc.
Qed.

Lemma build_matrix_unselected (data : OpportunityData.t) :
  selected_cells (build_matrix data []) = [].
Proof.
  apply selected_cells_none.
  refine (Forall_impl _ _ (build_matrix_without_records data)).
  now intros c [_ H].
Qed.

(** X14. After a successful delete-and-recreate nothing is selected: both
    totals are 0, the duplicate options are hidden, the submit button is
    disabled, and a submission attempted all the same ends in the
    validation toast without a backend call. The operation itself calls
    [deleteExistingCommissions] and shows the success toast. *)
Theorem delete_then_submit :
  forall u r s,
    let s' := exec (handleDeleteAndRecreate (Resolved u)) s in
    State.totalCommissions s' = 0
    /\ State.totalAmount s' = 0%float
    /\ State.showDuplicateOptions s' = false
    /\ State.isProcessing s' = false
    /\ buttonDisabled s' = true
    /\ trace (handleGenerateCommissions r) s' = validation_failure
    /\ trace (handleDeleteAndRecreate (Resolved u)) s
       = [ DeleteExistingCommissions (State.opportunityId s);
           ShowToast "Success"
             "Existing commissions deleted. You can now create new ones."
             "success" ].
Proof.
  intros u r s s'.
  assert (Hsel : selected_cells (State.matrixData s') = []).
  { subst s'.
    rewrite (proj2 (proj2 (handleDeleteAndRecreate_resolved_grid u s))).
    rewrite selected_cells_settle, build_matrix_unselected. reflexivity. }
  assert (Htotals : State.totalCommissions s' = 0
                    /\ State.totalAmount s' = 0%float
                    /\ State.showDuplicateOptions s' = false
                    /\ State.isProcessing s' = false).
  { subst s'. unfold handleDeleteAndRecreate. run.
    rewrite !exec_initializeMatrix, !exec_calculateTotals. cbn.
    rewrite build_matrix_unselected. repeat split. }
  destruct Htotals as (Hc & Ha & Hd & Hp).
  repeat (split; [assumption|]).
  split; [|split].
  - unfold buttonDisabled. rewrite Hc. simpl. apply orb_true_r.
  - now apply trace_handleGenerateCommissions_none.
  - unfold handleDeleteAndRecreate. run.
    now rewrite trace_initializeMatrix.
Qed.

(** X15. With no line item or no team member to pair, whether the list is
    missing or empty, reconciliation yields an empty grid with both totals
    0, and the submit button is disabled. *)
Theorem reconcile_without_pairs :
  forall s,
    or_empty (OpportunityData.lineItems (State.opportunityData s)) = []
    \/ or_empty (OpportunityData.teamMembers (State.opportunityData s)) = [] ->
    let s' := exec initializeMatrix s in
    State.matrixData s' = []
    /\ State.totalCommissions s' = 0
    /\ State.totalAmount s' = 0%float
    /\ hasData s' = false
    /\ buttonDisabled s' = true.
Proof.
  intros s Hempty s'.
  assert (Hgrid : build_matrix (State.opportunityData s)
                               (State.existingCommissions s) = []).
  { rewrite build_matrix_pairs. unfold pairs_of.
    destruct Hempty as [-> | ->]; [reflexivity|].
    now rewrite list_prod_nil_r. }
  assert (Hdata : hasData s' = false).
  { subst s'. rewrite exec_initializeMatrix, exec_calculateTotals.
    unfold hasData. cbn.
    destruct (OpportunityData.lineItems (State.opportunityData s)) as [[|? ?]|];
      destruct (OpportunityData.teamMembers (State.opportunityData s))
        as [[|? ?]|]; simpl in *; try reflexivity;
      destruct Hempty; discriminate. }
  subst s'. unfold buttonDisabled. rewrite Hdata.
  rewrite exec_initializeMatrix, exec_calculateTotals. cbn.
  rewrite Hgrid. repeat split.
Qed.

Lemma reconcile_without_pairs_witness :
  State.matrixData (exec initializeMatrix (State.initial "006Z")) = []
  /\ buttonDisabled (exec initializeMatrix (State.initial "006Z")) = true.
Proof.
  destruct (reconcile_without_pairs (State.initial "006Z") (or_introl eq_refl))
    as (Hgrid & _ & _ & _ & Hbutton).
  split; [exact Hgrid | exact Hbutton].
Defined.

(** ** Repeating an event *)

Lemma mutate_twice (f : Cell.t -> Cell.t) (s : State.t) :
  (forall c, settle (f (settle (f c))) = settle (f c)) ->
  State.matrixData (exec (mutate f) (exec (mutate f) s))
  = State.matrixData (exec (mutate f) s)
  /\ State.totalCommissions (exec (mutate f) (exec (mutate f) s))
     = State.totalCommissions (exec (mutate f) s)
  /\ State.totalAmount (exec (mutate f) (exec (mutate f) s))
     = State.totalAmount (exec (mutate f) s).
Proof.
  intros Hf.
  assert (Hgrid : State.matrixData (exec (mutate f) (exec (mutate f) s))
                  = State.matrixData (exec (mutate f) s)).
  { rewrite !matrixData_mutate, map_map. apply map_ext. exact Hf. }
  split; [exact Hgrid|].
  apply settled_same_grid; [apply mutate_settles | apply mutate_settles|].
  exact Hgrid.
Qed.

Lemma checkbox_update_again cellId b c :
  settle (checkbox_update cellId b (settle (checkbox_update cellId b c)))
  = settle (checkbox_update cellId b c).
Proof.
  unfold checkbox_update.
  destruct (String.eqb (Cell.id c) cellId) eqn:Hid; cbn; rewrite Hid;
    reflexivity.
Qed.

Lemma percentage_update_again cellId p c :
  settle (percentage_update cellId p (settle (percentage_update cellId p c)))
  = settle (percentage_update cellId p c).
Proof.
  unfold percentage_update.
  destruct (String.eqb (Cell.id c) cellId) eqn:Hid; cbn; rewrite Hid;
    reflexivity.
Qed.

Lemma lineItem_update_again lineItemId b c :
  settle (lineItem_update lineItemId b (settle (lineItem_update lineItemId b c)))
  = settle (lineItem_update lineItemId b c).
Proof.
  unfold lineItem_update.
  destruct (strict_eq (Cell.lineItemId c) lineItemId) eqn:Hid;
    [|cbn; rewrite Hid; reflexivity].
  destruct b; cbn [andb].
  - destruct (Cell.percentage c =? 0)%float eqn:Hzero; cbn; rewrite Hid.
    + destruct (Cell.defaultPercentage c =? 0)%float; reflexivity.
    + rewrite Hzero. reflexivity.
  - cbn. rewrite Hid. reflexivity.
Qed.

Lemma teamMember_update_again userId b c :
  settle (teamMember_update userId b (settle (teamMember_update userId b c)))
  = settle (teamMember_update userId b c).
Proof.
  unfold teamMember_update.
  destruct (strict_eq (Cell.userId c) userId) eqn:Hid;
    [|cbn; rewrite Hid; reflexivity].
  destruct b; cbn; rewrite Hid; reflexivity.
Qed.

(** X16. Each matrix handler is idempotent on the grid: handling the same
    event a second time leaves the grid and both totals as the first time
    left them. In particular a repeated select-all for a line item does not
    replace a default percentage it has just filled in. *)
Theorem matrix_handlers_idempotent :
  forall event s handler,
    In handler [ handleCheckboxChange; handlePercentageChange;
                 handleSelectAllForLineItem; handleSelectAllForTeamMember ] ->
    let once := exec (handler event) s in
    let twice := exec (handler event) once in
    State.matrixData twice = State.matrixData once
    /\ State.totalCommissions twice = State.totalCommissions once
    /\ State.totalAmount twice = State.totalAmount once.
Proof.
  intros event s handler [<- | [<- | [<- | [<- | []]]]]; cbv zeta.
  - destruct (handleCheckboxChange_cases event)
      as [-> | (l & u & _ & _ & _ & _ & ->)]; [repeat split|].
    apply mutate_twice. intros c. apply checkbox_update_again.
  - destruct (handlePercentageChange_cases event)
      as [-> | (l & u & _ & _ & _ & _ & ->)]; [repeat split|].
    apply mutate_twice. intros c. apply percentage_update_again.
  - destruct (handleSelectAllForLineItem_cases event)
      as [-> | (l & _ & _ & ->)]; [repeat split|].
    apply mutate_twice. intros c. apply lineItem_update_again.
  - destruct (handleSelectAllForTeamMember_cases event)
      as [-> | (u & _ & _ & ->)]; [repeat split|].
    apply mutate_twice. intros c. apply teamMember_update_again.
Qed.

Lemma matrix_handlers_idempotent_witness :
  map Cell.percentage
      (State.matrixData
         (exec (handleSelectAllForLineItem (Example.click "00kB" "005X" true))
               Example.edited))
  = [10%float; 15%float; 12%float; 5%float]
  /\ State.matrixData
       (exec (handleSelectAllForLineItem (Example.click "00kB" "005X" true))
          (exec (handleSelectAllForLineItem
                   (Example.click "00kB" "005X" true))
                Example.edited))
     = State.matrixData
         (exec (handleSelectAllForLineItem (Example.click "00kB" "005X" true))
               Example.edited).
Proof.
  split; [reflexivity|].
  exact (proj1 (matrix_handlers_idempotent
                  (Example.click "00kB" "005X" true) Example.edited
                  handleSelectAllForLineItem
                  (or_intror (or_intror (or_introl eq_refl))))).
Defined.
